(** * Gift-certificate Telegram bot (bot.py): a shallow embedding

    Strings are Python [str] values: lists of Unicode code points.
    Telegram and backend I/O is written as a free monad [prog]: every
    backend call ([Api] for the JSON endpoints, [Pdf] for the document
    download) hands its response to a continuation, every message the
    bot sends is an [Emit] node, and an uncaught Python exception is
    [Raise].  The per-user [context.user_data] dictionary and the
    per-(chat, user) state of the [ConversationHandler] are explicit. *)

From Stdlib Require Import List ZArith Bool String Ascii Lia.
Import ListNotations.
Open Scope Z_scope.
Set Warnings "-register-all".

(** ** Python strings *)

Definition ustr := list Z.

(** An ASCII literal as a list of code points. *)
Definition u (s : string) : ustr :=
  map (fun a => Z.of_nat (nat_of_ascii a)) (list_ascii_of_string s).

Fixpoint ustr_eqb (a b : ustr) : bool :=
  match a, b with
  | [], [] => true
  | x :: a', y :: b' => (x =? y) && ustr_eqb a' b'
  | _, _ => false
  end.

Definition is_empty {A} (l : list A) : bool :=
  match l with [] => true | _ => false end.

(** [str.isspace] for one code point (CPython's [Py_UNICODE_ISSPACE]). *)
Definition py_isspace (c : Z) : bool :=
  ((9 <=? c) && (c <=? 13)) || ((28 <=? c) && (c <=? 32)) || (c =? 133)
  || (c =? 160) || (c =? 5760) || ((8192 <=? c) && (c <=? 8202))
  || (c =? 8232) || (c =? 8233) || (c =? 8239) || (c =? 8287) || (c =? 12288).

Fixpoint lstrip (s : ustr) : ustr :=
  match s with
  | c :: r => if py_isspace c then lstrip r else s
  | [] => []
  end.

(** [str.strip()] with no argument. *)
Definition py_strip (s : ustr) : ustr := rev (lstrip (rev (lstrip s))).

Fixpoint py_startswith (s p : ustr) : bool :=
  match p, s with
  | [], _ => true
  | x :: p', y :: s' => (x =? y) && py_startswith s' p'
  | _ :: _, [] => false
  end.

Fixpoint py_contains (s p : ustr) : bool :=
  py_startswith s p || match s with [] => false | _ :: s' => py_contains s' p end.

(** [s.replace(c, rep)] for a one-character pattern [c]. *)
Definition replace_ch (c : Z) (rep : ustr) (s : ustr) : ustr :=
  flat_map (fun x => if x =? c then rep else [x]) s.

Fixpoint py_join (sep : ustr) (l : list ustr) : ustr :=
  match l with
  | [] => []
  | [x] => x
  | x :: r => x ++ sep ++ py_join sep r
  end.

(** [str(n)] for a Python [int]. *)
Fixpoint dec_digits (fuel : nat) (n : Z) (acc : ustr) : ustr :=
  match fuel with
  | O => acc
  | S f =>
      let acc' := (48 + n mod 10) :: acc in
      if n <? 10 then acc' else dec_digits f (n / 10) acc'
  end.

Definition py_str_Z (z : Z) : ustr :=
  let n := Z.abs z in
  let ds := dec_digits (S (Z.to_nat (Z.log2 n))) n [] in
  if z <? 0 then 45 :: ds else ds.

(** ** The Unicode character database

    [str.isdigit], the decimal value [int()] gives a digit, [str.lower]
    and [repr] of a [str] depend on Python's Unicode tables; the
    development is parametric in them.  [PyUnicodeLaws] lists the facts
    of the tables the proofs rely on. *)
Class PyUnicode := {
  py_isdigit : Z -> bool;
  py_decimal : Z -> option Z;
  py_lower : ustr -> ustr;
  py_repr_str : ustr -> ustr
}.

Class PyUnicodeLaws (U : PyUnicode) : Prop := {
  decimal_isdigit : forall c v, py_decimal c = Some v -> py_isdigit c = true;
  decimal_range : forall c v, py_decimal c = Some v -> 0 <= v <= 9;
  decimal_ascii : forall c, 48 <= c <= 57 -> py_decimal c = Some (c - 48);
  digit_not_space : forall c, py_isdigit c = true -> py_isspace c = false;
  punct_not_digit : py_isdigit 43 = false /\ py_isdigit 45 = false /\ py_isdigit 95 = false
}.

(** The Latin-1 part of Python's tables: [isdigit] holds for the ASCII
    digits and for the superscripts U+00B2, U+00B3, U+00B9; only the ASCII
    digits are decimal.  Lower-casing is the ASCII one. *)
Definition latin1_unicode : PyUnicode := {|
  py_isdigit := fun c => ((48 <=? c) && (c <=? 57)) || (c =? 178) || (c =? 179) || (c =? 185);
  py_decimal := fun c => if (48 <=? c) && (c <=? 57) then Some (c - 48) else None;
  py_lower := map (fun c => if (65 <=? c) && (c <=? 90) then c + 32 else c);
  py_repr_str := fun s => [39] ++ s ++ [39]
|}.

#[export] Instance latin1_unicode_laws : PyUnicodeLaws latin1_unicode.
Proof.
  split; cbn.
  - intros c v. destruct ((48 <=? c) && (c <=? 57)); [reflexivity | discriminate].
  - intros c v. destruct ((48 <=? c) && (c <=? 57)) eqn:E; [|discriminate].
    intros H; injection H as <-. apply andb_true_iff in E as [E1 E2].
    apply Z.leb_le in E1. apply Z.leb_le in E2. lia.
  - intros c Hc. replace ((48 <=? c) && (c <=? 57)) with true; [reflexivity|].
    symmetry. apply andb_true_iff. split; apply Z.leb_le; lia.
  - intros c H. destruct (py_isspace c) eqn:E; [exfalso|reflexivity].
    unfold py_isspace in E.
    rewrite ?orb_true_iff, ?andb_true_iff, ?Z.leb_le, ?Z.eqb_eq in H, E. lia.
  - repeat split.
Qed.

(** ** Literals of bot.py *)

Definition L_cancel : ustr := [10060; 32; 1054; 1090; 1084; 1077; 1085; 1072]. (* "❌ Отмена" *)
Definition L_email : ustr := [9993; 65039; 32; 1053; 1072; 32; 101; 109; 97; 105; 108]. (* "✉️ На email" *)
Definition L_pdf_tg : ustr := [128196; 32; 80; 68; 70; 32; 1074; 32; 84; 101; 108; 101; 103; 114; 97; 109]. (* "📄 PDF в Telegram" *)
Definition L_new : ustr := [10133; 32; 1057; 1086; 1079; 1076; 1072; 1090; 1100; 32; 1089; 1077; 1088; 1090; 1080; 1092; 1080; 1082; 1072; 1090]. (* "➕ Создать сертификат" *)
Definition L_journal : ustr := [128210; 32; 1046; 1091; 1088; 1085; 1072; 1083]. (* "📒 Журнал" *)
Definition L_sheet : ustr := [128279; 32; 1054; 1090; 1082; 1088; 1099; 1090; 1100; 32; 71; 111; 111; 103; 108; 101; 45; 1090; 1072; 1073; 1083; 1080; 1094; 1091]. (* "🔗 Открыть Google-таблицу" *)
Definition s_dash : ustr := [8212]. (* "—" *)
Definition s_cert_not_found : ustr := [1057; 1077; 1088; 1090; 1080; 1092; 1080; 1082; 1072; 1090; 32; 1085; 1077; 32; 1085; 1072; 1081; 1076; 1077; 1085; 46]. (* "Сертификат не найден." *)

Definition s_use_note : ustr := [1048; 1089; 1087; 1086; 1083; 1100; 1079; 1086; 1074; 1072; 1085; 32; 1095; 1077; 1088; 1077; 1079; 32; 84; 101; 108; 101; 103; 114; 97; 109]. (* "Использован через Telegram" *)
Definition s_annul_reason : ustr := [1040; 1085; 1085; 1091; 1083; 1080; 1088; 1086; 1074; 1072; 1085; 32; 1095; 1077; 1088; 1077; 1079; 32; 84; 101; 108; 101; 103; 114; 97; 109]. (* "Аннулирован через Telegram" *)

Definition s_title : ustr := [127903; 32; 60; 98; 62; 1057; 1077; 1088; 1090; 1080; 1092; 1080; 1082; 1072; 1090; 60; 47; 98; 62]. (* "🎟 <b>Сертификат</b>" *)
Definition s_code : ustr := [1050; 1086; 1076; 58; 32; 60; 98; 62]. (* "Код: <b>" *)
Definition s_sum : ustr := [1057; 1091; 1084; 1084; 1072; 58; 32; 60; 98; 62]. (* "Сумма: <b>" *)
Definition s_status : ustr := [1057; 1090; 1072; 1090; 1091; 1089; 58; 32]. (* "Статус: " *)
Definition s_source : ustr := [1048; 1089; 1090; 1086; 1095; 1085; 1080; 1082; 58; 32; 60; 99; 111; 100; 101; 62]. (* "Источник: <code>" *)
Definition s_recipient : ustr := [1055; 1086; 1083; 1091; 1095; 1072; 1090; 1077; 1083; 1100; 58; 32; 60; 98; 62]. (* "Получатель: <b>" *)
Definition s_recipient_mid : ustr := [60; 47; 98; 62; 32; 8212; 32]. (* "</b> — " *)
Definition s_donor : ustr := [1044; 1072; 1088; 1080; 1090; 1077; 1083; 1100; 58; 32; 60; 98; 62]. (* "Даритель: <b>" *)
Definition s_order : ustr := [1047; 1072; 1082; 1072; 1079; 58; 32; 60; 99; 111; 100; 101; 62; 35]. (* "Заказ: <code>#" *)
Definition t_created : ustr := [1057; 1086; 1079; 1076; 1072; 1085]. (* "Создан" *)
Definition t_sent : ustr := [1054; 1090; 1087; 1088; 1072; 1074; 1083; 1077; 1085]. (* "Отправлен" *)
Definition t_used : ustr := [1048; 1089; 1087; 1086; 1083; 1100; 1079; 1086; 1074; 1072; 1085]. (* "Использован" *)
Definition t_annulled : ustr := [1040; 1085; 1085; 1091; 1083; 1080; 1088; 1086; 1074; 1072; 1085]. (* "Аннулирован" *)
Definition e_used : ustr := [9851; 65039]. (* "♻️" *)
Definition e_annulled : ustr := [128683]. (* "🚫" *)
Definition e_error : ustr := [9888; 65039]. (* "⚠️" *)
Definition e_ok : ustr := [9989]. (* "✅" *)
Definition lab_used : ustr := t_used.
Definition lab_annulled : ustr := t_annulled.
Definition lab_sent : ustr := t_sent.
Definition lab_manual : ustr := [1057; 1086; 1079; 1076; 1072; 1085; 32; 1074; 1088; 1091; 1095; 1085; 1091; 1102]. (* "Создан вручную" *)
Definition lab_send_error : ustr := [1054; 1096; 1080; 1073; 1082; 1072; 32; 1086; 1090; 1087; 1088; 1072; 1074; 1082; 1080]. (* "Ошибка отправки" *)

(** ** JSON values as Python objects *)

Inductive json : Type :=
| JNull
| JBool (b : bool)
| JInt (z : Z)
| JStr (s : ustr)
| JList (l : list json)
| JObj (kv : list (ustr * json)).

(** A decoded JSON object, i.e. a Python [dict] with string keys. *)
Definition jobj := list (ustr * json).

Fixpoint jlookup (d : jobj) (k : ustr) : option json :=
  match d with
  | [] => None
  | (k', v) :: r => if ustr_eqb k k' then Some v else jlookup r k
  end.

(** [d.get(k, default)] and [d.get(k)]. *)
Definition get_d (d : jobj) (k : ustr) (default : json) : json :=
  match jlookup d k with Some v => v | None => default end.
Definition get (d : jobj) (k : ustr) : json := get_d d k JNull.

(** Python truthiness and [a or b]. *)
Definition truthy (v : json) : bool :=
  match v with
  | JNull => false
  | JBool b => b
  | JInt z => negb (z =? 0)
  | JStr s => negb (is_empty s)
  | JList l => negb (is_empty l)
  | JObj kv => negb (is_empty kv)
  end.
Definition py_or (a b : json) : json := if truthy a then a else b.

Section Unicode.
Context {U : PyUnicode}.

(** [str(v)] and [repr(v)]. *)
Fixpoint py_repr (v : json) : ustr :=
  match v with
  | JNull => u "None"
  | JBool true => u "True"
  | JBool false => u "False"
  | JInt z => py_str_Z z
  | JStr s => py_repr_str s
  | JList l =>
      u "[" ++ py_join (u ", ") (map py_repr l) ++ u "]"
  | JObj kv =>
      u "{" ++ py_join (u ", ")
        (map (fun '(k, x) => py_repr_str k ++ u ": " ++ py_repr x) kv) ++ u "}"
  end.
Definition py_str (v : json) : ustr :=
  match v with JStr s => s | _ => py_repr v end.

(** [str.isdigit()]: non-empty and every character a digit. *)
Definition py_str_isdigit (s : ustr) : bool :=
  negb (is_empty s) && forallb py_isdigit s.

(** ["".join(ch for ch in s if ch.isdigit())] *)
Definition digits_only (s : ustr) : ustr := filter py_isdigit s.

(** [int(s)] for a [str]: surrounding whitespace, an optional sign, decimal
    digits with single underscores between them, and at most 4300 digits
    (CPython's default [sys.int_info.default_max_str_digits]).  [None] is
    the [ValueError]. *)
Fixpoint int_digits (s : ustr) (acc : Z) (n : nat) : option (Z * nat) :=
  match s with
  | [] => Some (acc, n)
  | c :: r =>
      if c =? 95 then
        match r with
        | d :: r' =>
            match py_decimal d with
            | Some v => int_digits r' (acc * 10 + v) (S n)
            | None => None
            end
        | [] => None
        end
      else
        match py_decimal c with
        | Some v => int_digits r (acc * 10 + v) (S n)
        | None => None
        end
  end.

Definition int_unsigned (s : ustr) : option Z :=
  match s with
  | c :: r =>
      match py_decimal c with
      | Some v =>
          match int_digits r v 1 with
          | Some (z, n) => if (n <=? 4300)%nat then Some z else None
          | None => None
          end
      | None => None
      end
  | [] => None
  end.

Definition py_int (s : ustr) : option Z :=
  match py_strip s with
  | c :: r =>
      if c =? 43 then int_unsigned r
      else if c =? 45 then option_map Z.opp (int_unsigned r)
      else int_unsigned (c :: r)
  | [] => None
  end.

(** [int(v)] on a JSON value; [None] is the [TypeError]/[ValueError]. *)
Definition py_int_json (v : json) : option Z :=
  match v with
  | JInt z => Some z
  | JBool b => Some (if b then 1 else 0)
  | JStr s => py_int s
  | _ => None
  end.

(** ** Output of the bot and the backend calls *)

(** The messages the bot sends; a constructor per text template of
    bot.py, its arguments the values interpolated into it. *)
Inductive text : Type :=
| TPromo                          (* NON_ADMIN_SCAN_TEXT *)
| TAccessRestricted               (* "Доступ ограничен." *)
| TChooseAction                   (* "Выберите действие:" *)
| TSheetNotConfigured
| TSheetTitle                     (* "Журнал сертификатов:" *)
| TAskAmount
| TCancelled                      (* "Отменено." *)
| TAmountHint                     (* "Нужно число > 0. Пример: 70" *)
| TAskRecipientName
| TAskDonorFirst
| TAskDonorLast
| TAskEmail
| TSummary (amount recipient donor email : ustr)
| TEmailMissing
| TGenerating                     (* "Генерирую сертификат…" *)
| TApiError (err raw500 : ustr)   (* f"Ошибка API: {error}\n{str(raw)[:500]}" *)
| TCreatedCaption (code amount : ustr)
| TCreatedPdfFailed (e : ustr)    (* f"Создан, но не смог отправить PDF: {e}" *)
| TJournalLink                    (* "Журнал:" *)
| TDone                           (* "Готово." *)
| TListApiError (err : ustr)
| TJournalEmpty
| TJournalHeader
| TJournalExtra                   (* "Дополнительно:" *)
| TScanUsage                      (* "Использование: /scan 123456" *)
| TNeedNumeric                    (* "Нужен числовой код." *)
| TPdfUsage
| TPdfByCodeCaption (code : ustr)
| TPdfCmdError (e : ustr)         (* f"Ошибка: {e}" *)
| TCertNotFound (code msg300 : ustr)
| TBadCommand                     (* "Некорректная команда." *)
| TDelAsk (gid : ustr)            (* f"Удалить сертификат #{gid}? ..." *)
| TDelNo                          (* "Ок, не удаляю." *)
| TDeleting
| TDeleteError (err300 : ustr)
| TDeleted (gid : ustr)
| TPreparingPdf
| TCertPdfCaption (gid : ustr)
| TPdfError (e : ustr)            (* f"Ошибка PDF: {e}" *)
| TSendingEmail
| TResendError (err300 : ustr)
| TEmailSent (gid : ustr)
| TMarkingUsed
| TUseError (err300 : ustr)
| TReadyCheck                     (* "Готово ✅" *)
| TAnnulling
| TAnnulError (err300 : ustr)
| TAnnulled (gid : ustr)
| TUnknownAction.

(** Labels of inline buttons. *)
Inductive blabel : Type :=
| BPdf | BEmail | BUse | BAnnul | BDelete | BDelYes | BDelNo
| BOpenJournal | BJournalSheet | BOpenSheet.

Inductive ibtn : Type :=
| IBData (label : blabel) (callback_data : ustr)
| IBUrl (label : blabel) (url : ustr).

Inductive markup : Type :=
| NoMarkup
| ReplyKb (rows : list (list ustr))
| RemoveKb
| InlineKb (rows : list (list ibtn)).

Inductive out : Type :=
| OText (t : text) (mk : markup)              (* reply_text *)
| OHtml (body : ustr) (mk : markup)           (* reply_text(parse_mode="HTML") *)
| ODoc (name : ustr) (data : list Z) (caption : text)  (* reply_document *)
| OAnswer (t : option text) (alert : bool).   (* callback_query.answer *)

Inductive endpoint : Type := EResend | EAnnul | EDelete.

(** The JSON endpoints of the backend, with the payload or query
    parameters bot.py sends. *)
Inductive jcall : Type :=
| CCreate (payload : jobj)
| CList (params : jobj)
| CGet (params : jobj)
| CUse (payload : jobj)
| CPost (e : endpoint) (payload : jobj).

(** [api_download_pdf]: the bytes, or the [RuntimeError] it raises. *)
Inductive dl_result : Type :=
| DLOk (bytes : list Z)
| DLErr (msg : ustr).

Inductive prog (A : Type) : Type :=
| Ret (a : A)
| Raise
| Emit (o : out) (k : prog A)
| Api (c : jcall) (k : json -> prog A)
| Pdf (params : jobj) (k : dl_result -> prog A).
#[global] Arguments Ret {A} a.
#[global] Arguments Raise {A}.
#[global] Arguments Emit {A} o k.
#[global] Arguments Api {A} c k.
#[global] Arguments Pdf {A} params k.

Fixpoint bind {A B} (m : prog A) (f : A -> prog B) : prog B :=
  match m with
  | Ret a => f a
  | Raise => Raise
  | Emit o k => Emit o (bind k f)
  | Api c k => Api c (fun r => bind (k r) f)
  | Pdf p k => Pdf p (fun r => bind (k r) f)
  end.

Notation "x <- m ;; k" := (bind m (fun x => k))
  (at level 61, m at next level, right associativity).
Notation "m ;;; k" := (bind m (fun _ : unit => k))
  (at level 61, right associativity).

Definition say (o : out) : prog unit := Emit o (Ret tt).
Definition reply (t : text) : prog unit := say (OText t NoMarkup).

(** An [api_*] helper followed by [resp.get(...)]: a response that is
    not a JSON object makes the [.get] raise. *)
Definition api (c : jcall) : prog jobj :=
  Api c (fun r => match r with JObj d => Ret d | _ => Raise end).
Definition download (params : jobj) : prog dl_result := Pdf params Ret.

Definition lift {A} (o : option A) : prog A :=
  match o with Some a => Ret a | None => Raise end.

(** ** Configuration and the identity gate *)

Record config : Type := mkConfig {
  admin_ids : list Z;   (* TG_ADMIN_IDS *)
  sheet_url : ustr      (* SHEET_URL *)
}.

(** [update.effective_user.id if update.effective_user else 0] *)
Definition caller_uid (user : option Z) : Z :=
  match user with Some i => i | None => 0 end.

Definition is_admin (cfg : config) (user : option Z) : bool :=
  is_empty (admin_ids cfg) || existsb (Z.eqb (caller_uid user)) (admin_ids cfg).
(** ** Formatting helpers (format_cert and its helpers) *)

(** [esc_html]: [None] is [""], anything else goes through [str]. *)
Definition esc_html (v : json) : ustr :=
  let s := match v with JNull => [] | _ => py_str v end in
  replace_ch 62 (u "&gt;") (replace_ch 60 (u "&lt;") (replace_ch 38 (u "&amp;") s)).

(** [(v or "")] where a [str] method follows: a truthy non-[str] raises. *)
Definition str_or_empty (v : json) : option ustr :=
  if truthy v then match v with JStr s => Some s | _ => None end else Some [].

Definition status_emoji (status : json) : option ustr :=
  match str_or_empty status with
  | None => None
  | Some s0 =>
      let s := py_lower s0 in
      Some (if ustr_eqb s (u "used") then e_used
            else if ustr_eqb s (u "annulled") then e_annulled
            else if py_contains s (u "error") then e_error
            else e_ok)
  end.

Definition status_label (status : json) : option json :=
  match str_or_empty status with
  | None => None
  | Some s0 =>
      let s := py_lower s0 in
      Some (if ustr_eqb s (u "used") then JStr lab_used
            else if ustr_eqb s (u "annulled") then JStr lab_annulled
            else if ustr_eqb s (u "sent") then JStr lab_sent
            else if ustr_eqb s (u "manual") then JStr lab_manual
            else if ustr_eqb s (u "send_error") then JStr lab_send_error
            else py_or status (JStr s_dash))
  end.

(** [(cert.get(k) or "").strip()] *)
Definition field_stripped (cert : jobj) (k : ustr) : option ustr :=
  option_map py_strip (str_or_empty (get cert k)).

Definition or_dash (s : ustr) : ustr := if is_empty s then s_dash else s.

Definition timestamp_keys : list (ustr * ustr) :=
  [(u "created_at", t_created); (u "sent_at", t_sent);
   (u "used_at", t_used); (u "annulled_at", t_annulled)].

Fixpoint timestamp_lines (cert : jobj) (ks : list (ustr * ustr)) : option (list ustr) :=
  match ks with
  | [] => Some []
  | (k, title) :: r =>
      match field_stripped cert k, timestamp_lines cert r with
      | Some v, Some rest =>
          Some ((if is_empty v then []
                 else [title ++ u ": <code>" ++ esc_html (JStr v) ++ u "</code>"]) ++ rest)
      | _, _ => None
      end
  end.

(** [format_cert]; [None] is an exception raised while formatting. *)
Definition format_cert (cert : jobj) : option ustr :=
  let gid := get_d cert (u "giftcert_id") (JStr []) in
  let code := get_d cert (u "code") (JStr []) in
  let amount := get_d cert (u "amount") (JStr []) in
  let st := get_d cert (u "status") (JStr []) in
  let src := py_or (get cert (u "source")) (JStr s_dash) in
  match status_emoji st, status_label st,
        field_stripped cert (u "recipient_name"), field_stripped cert (u "recipient_email"),
        str_or_empty (get cert (u "lastname")), str_or_empty (get cert (u "firstname")),
        timestamp_lines cert timestamp_keys,
        py_int_json (py_or (get cert (u "order_id")) (JInt 0)) with
  | Some emo, Some lab, Some rn, Some reml, Some ln, Some fn, Some ts, Some oid =>
      let donor := py_strip (ln ++ u " " ++ fn) in
      let lines :=
        [s_title;
         u "ID: <b>" ++ esc_html gid ++ u "</b>";
         s_code ++ esc_html code ++ u "</b>";
         s_sum ++ esc_html amount ++ u " BYN</b>";
         s_status ++ emo ++ u " <b>" ++ esc_html lab ++ u "</b>";
         s_source ++ esc_html src ++ u "</code>"]
        ++ (if is_empty rn && is_empty reml then []
            else [s_recipient ++ esc_html (JStr (or_dash rn)) ++ s_recipient_mid
                  ++ esc_html (JStr (or_dash reml))])
        ++ (if is_empty donor then [] else [s_donor ++ esc_html (JStr donor) ++ u "</b>"])
        ++ ts
        ++ (if oid =? 0 then [] else [s_order ++ py_str_Z oid ++ u "</code>"]) in
      Some (py_join [10] lines)
  | _, _, _, _, _, _, _, _ => None
  end.

Definition build_cert_keyboard (cert : jobj) : option markup :=
  match py_int_json (py_or (get cert (u "giftcert_id")) (JInt 0)),
        str_or_empty (get cert (u "status")) with
  | Some gid, Some st0 =>
      let st := py_lower st0 in
      let g := py_str_Z gid in
      Some (InlineKb
        ([[IBData BPdf (u "pdf:" ++ g); IBData BEmail (u "email:" ++ g)]]
         ++ (if ustr_eqb st (u "used") || ustr_eqb st (u "annulled") then []
             else [[IBData BUse (u "use:" ++ g); IBData BAnnul (u "annul:" ++ g)]])
         ++ [[IBData BDelete (u "del:" ++ g)]]))
  | _, _ => None
  end.

(** [reply_text(format_cert(cert), reply_markup=build_cert_keyboard(cert),
    parse_mode="HTML")] *)
Definition say_card (cert : jobj) : prog unit :=
  body <- lift (format_cert cert) ;;
  kb <- lift (build_cert_keyboard cert) ;;
  say (OHtml body kb).

(** [resp.get("cert") or {}], used as a [dict]. *)
Definition cert_of (resp : jobj) : option jobj :=
  match py_or (get resp (u "cert")) (JObj []) with
  | JObj d => Some d
  | _ => None
  end.

(** Parameters of [api_get] / [api_download_pdf]. *)
Definition id_code_params (giftcert_id : Z) (code : ustr) : jobj :=
  (if giftcert_id =? 0 then [] else [(u "giftcert_id", JInt giftcert_id)])
  ++ (if is_empty code then [] else [(u "code", JStr code)]).

(** [resp.get("error") or resp.get("message") or resp.get("raw") or dflt] *)
Definition err_of (resp : jobj) (dflt : json) : json :=
  py_or (get resp (u "error")) (py_or (get resp (u "message")) (py_or (get resp (u "raw")) dflt)).

(** [fetch_cert_by_id]: [Some cert] or [None] (the error text is unused). *)
Definition fetch_cert_by_id (gid : Z) : prog (option json) :=
  resp <- api (CGet (id_code_params gid [])) ;;
  if negb (truthy (get resp (u "success"))) then Ret None
  else Ret (Some (py_or (get resp (u "cert")) (JObj []))).

Definition show_cert_by_code (code : ustr) : prog unit :=
  resp <- api (CGet (id_code_params 0 code)) ;;
  if negb (truthy (get resp (u "success"))) then
    reply (TCertNotFound code (firstn 300 (py_str (err_of resp (JStr s_cert_not_found)))))
  else
    cert <- lift (cert_of resp) ;;
    say_card cert.

(** ** Commands and handlers *)

(** The keys of [context.user_data] the wizard writes. *)
Record udata : Type := mkUD {
  ud_amount : option Z;
  ud_recipient_name : option ustr;
  ud_firstname : option ustr;
  ud_lastname : option ustr;
  ud_recipient_email : option ustr
}.

(** [context.user_data.clear()] *)
Definition ud_empty : udata := mkUD None None None None None.

(** Conversation states [AMOUNT, ..., ACTION = range(6)]. *)
Inductive wstate : Type :=
| AMOUNT | RECIPIENT_NAME | DONOR_FIRST | DONOR_LAST | RECIPIENT_EMAIL | ACTION.

(** What a conversation callback returns: a state, [ConversationHandler.END],
    or [None] (a bare [return]). *)
Inductive hret : Type := HState (s : wstate) | HEnd | HNone.

Definition start_menu (cfg : config) (user : option Z) : prog unit :=
  if negb (is_admin cfg user) then reply TAccessRestricted
  else say (OText TChooseAction
              (ReplyKb ([[L_new; L_journal]]
                        ++ (if is_empty (sheet_url cfg) then [] else [[L_sheet]])))).

(** [(context.args[0] or "").strip()] *)
Definition start_payload (args : list ustr) : ustr :=
  match args with a :: _ => py_strip a | [] => [] end.

(** The code extracted from a deep-link payload in [start]. *)
Definition start_code (payload : ustr) : ustr :=
  if py_startswith payload (u "gc_") || py_startswith payload (u "gc-")
  then digits_only (skipn 3 payload)
  else digits_only payload.

Definition start (cfg : config) (user : option Z) (args : list ustr) : prog unit :=
  let payload := start_payload args in
  if negb (is_empty payload) then
    let code := start_code payload in
    if negb (is_empty code) && negb (is_admin cfg user) then
      say (OText TPromo NoMarkup)
    else if negb (is_empty code) then show_cert_by_code code
    else start_menu cfg user
  else start_menu cfg user.

Definition sheet_cmd (cfg : config) (user : option Z) : prog unit :=
  if negb (is_admin cfg user) then reply TAccessRestricted
  else if is_empty (sheet_url cfg) then reply TSheetNotConfigured
  else say (OText TSheetTitle (InlineKb [[IBUrl BOpenJournal (sheet_url cfg)]])).

Definition new_cmd (cfg : config) (user : option Z) (ud : udata) : prog (udata * hret) :=
  if negb (is_admin cfg user) then reply TAccessRestricted ;;; Ret (ud, HEnd)
  else say (OText TAskAmount RemoveKb) ;;; Ret (ud_empty, HState AMOUNT).

Definition cancel (ud : udata) : prog (udata * hret) :=
  say (OText TCancelled RemoveKb) ;;; Ret (ud_empty, HEnd).

Definition on_amount (txt : ustr) (ud : udata) : prog (udata * hret) :=
  let s := py_strip txt in
  if negb (py_str_isdigit s) then reply TAmountHint ;;; Ret (ud, HState AMOUNT)
  else
    n <- lift (py_int s) ;;
    if n <=? 0 then reply TAmountHint ;;; Ret (ud, HState AMOUNT)
    else
      reply TAskRecipientName ;;;
      Ret ({| ud_amount := Some n; ud_recipient_name := ud_recipient_name ud;
              ud_firstname := ud_firstname ud; ud_lastname := ud_lastname ud;
              ud_recipient_email := ud_recipient_email ud |}, HState RECIPIENT_NAME).

(** ["" if s == "-" else s] *)
Definition skip_dash (s : ustr) : ustr := if ustr_eqb s [45] then [] else s.

Definition on_recipient_name (txt : ustr) (ud : udata) : prog (udata * hret) :=
  let s := py_strip txt in
  reply TAskDonorFirst ;;;
  Ret ({| ud_amount := ud_amount ud; ud_recipient_name := Some (skip_dash s);
          ud_firstname := ud_firstname ud; ud_lastname := ud_lastname ud;
          ud_recipient_email := ud_recipient_email ud |}, HState DONOR_FIRST).

Definition on_donor_first (txt : ustr) (ud : udata) : prog (udata * hret) :=
  let s := py_strip txt in
  reply TAskDonorLast ;;;
  Ret ({| ud_amount := ud_amount ud; ud_recipient_name := ud_recipient_name ud;
          ud_firstname := Some (skip_dash s); ud_lastname := ud_lastname ud;
          ud_recipient_email := ud_recipient_email ud |}, HState DONOR_LAST).

Definition on_donor_last (txt : ustr) (ud : udata) : prog (udata * hret) :=
  let s := py_strip txt in
  reply TAskEmail ;;;
  Ret ({| ud_amount := ud_amount ud; ud_recipient_name := ud_recipient_name ud;
          ud_firstname := ud_firstname ud; ud_lastname := Some (skip_dash s);
          ud_recipient_email := ud_recipient_email ud |}, HState RECIPIENT_EMAIL).

(** [user_data.get(k, "")] for the string keys. *)
Definition ud_str (o : option ustr) : ustr := match o with Some s => s | None => [] end.

Definition on_recipient_email (txt : ustr) (ud : udata) : prog (udata * hret) :=
  let s := py_strip txt in
  let ud' := {| ud_amount := ud_amount ud; ud_recipient_name := ud_recipient_name ud;
                ud_firstname := ud_firstname ud; ud_lastname := ud_lastname ud;
                ud_recipient_email := Some (skip_dash s) |} in
  let amount := match ud_amount ud' with Some n => JInt n | None => JNull end in
  let summary :=
    TSummary (py_str amount) (or_dash (ud_str (ud_recipient_name ud')))
             (or_dash (py_strip (ud_str (ud_firstname ud') ++ u " " ++ ud_str (ud_lastname ud'))))
             (or_dash (ud_str (ud_recipient_email ud'))) in
  say (OText summary (ReplyKb [[L_pdf_tg; L_email]; [L_cancel]])) ;;;
  Ret (ud', HState ACTION).

(** The creation request [on_action] builds from [user_data]. *)
Definition create_payload (ud : udata) (send_email : bool) : jobj :=
  [(u "amount", JInt (match ud_amount ud with Some n => n | None => 0 end));
   (u "recipient_name", JStr (ud_str (ud_recipient_name ud)));
   (u "firstname", JStr (ud_str (ud_firstname ud)));
   (u "lastname", JStr (ud_str (ud_lastname ud)));
   (u "recipient_email", JStr (ud_str (ud_recipient_email ud)));
   (u "send_email", JBool send_email)].

(** [if SHEET_URL: reply_text("Журнал:", ...)] *)
Definition sheet_link (cfg : config) : prog unit :=
  if is_empty (sheet_url cfg) then Ret tt
  else say (OText TJournalLink (InlineKb [[IBUrl BJournalSheet (sheet_url cfg)]])).

Definition on_action (cfg : config) (txt : ustr) (ud : udata) : prog (udata * hret) :=
  let t := py_strip txt in
  if ustr_eqb t L_cancel then cancel ud
  else
    let send_email := ustr_eqb t L_email in
    let payload := create_payload ud send_email in
    if send_email && is_empty (ud_str (ud_recipient_email ud)) then
      reply TEmailMissing ;;; Ret (ud, HState ACTION)
    else
      reply TGenerating ;;;
      resp <- api (CCreate payload) ;;
      if negb (truthy (get resp (u "success"))) then
        reply (TApiError (py_str (get resp (u "error")))
                         (firstn 500 (py_str (get_d resp (u "raw") (JStr []))))) ;;;
        Ret (ud, HEnd)
      else
        gid <- lift (py_int_json (py_or (get resp (u "giftcert_id")) (JInt 0))) ;;
        let code := get_d resp (u "code") (JStr []) in
        let amount := get_d resp (u "amount") (get_d payload (u "amount") JNull) in
        r <- download (id_code_params gid []) ;;
        (match r with
         | DLOk bytes =>
             say (ODoc (u "Certificate_" ++ py_str (py_or code (JInt gid)) ++ u ".pdf") bytes
                       (TCreatedCaption (py_str code) (py_str amount)))
         | DLErr e => reply (TCreatedPdfFailed e)
         end) ;;;
        sheet_link cfg ;;;
        say (OText TDone RemoveKb) ;;;
        Ret (ud, HEnd).

(** [for r in rows]: the items Python iterates over; [None] when the
    value is not iterable. *)
Definition py_iter (v : json) : option (list json) :=
  match v with
  | JList l => Some l
  | JObj kv => Some (map (fun '(k, _) => JStr k) kv)
  | JStr s => Some (map (fun c => JStr [c]) s)
  | _ => None
  end.

Fixpoint say_cards (rows : list json) : prog unit :=
  match rows with
  | [] => Ret tt
  | JObj d :: r => say_card d ;;; say_cards r
  | _ :: _ => Raise
  end.

Definition journal_cmd (cfg : config) (user : option Z) : prog unit :=
  if negb (is_admin cfg user) then reply TAccessRestricted
  else
    resp <- api (CList [(u "start", JInt 0); (u "limit", JInt 10)]) ;;
    if negb (truthy (get resp (u "success"))) then
      reply (TListApiError (py_str (get resp (u "error"))))
    else
      let rows := get_d resp (u "rows") (JList []) in
      if negb (truthy rows) then reply TJournalEmpty
      else
        reply TJournalHeader ;;;
        items <- lift (py_iter rows) ;;
        say_cards items ;;;
        (if is_empty (sheet_url cfg) then Ret tt
         else say (OText TJournalExtra (InlineKb [[IBUrl BOpenSheet (sheet_url cfg)]]))).

Definition scan_cmd (cfg : config) (user : option Z) (args : list ustr) : prog unit :=
  match args with
  | [] => reply TScanUsage
  | a :: _ =>
      let code := digits_only a in
      if is_empty code then reply TNeedNumeric
      else if negb (is_admin cfg user) then say (OText TPromo NoMarkup)
      else show_cert_by_code code
  end.

Definition pdf_cmd (cfg : config) (user : option Z) (args : list ustr) : prog unit :=
  if negb (is_admin cfg user) then reply TAccessRestricted
  else
    match args with
    | [] => reply TPdfUsage
    | a :: _ =>
        let code := digits_only a in
        if is_empty code then reply TNeedNumeric
        else
          r <- download (id_code_params 0 code) ;;
          match r with
          | DLOk bytes =>
              say (ODoc (u "Certificate_" ++ code ++ u ".pdf") bytes (TPdfByCodeCaption code))
          | DLErr e => reply (TPdfCmdError e)
          end
    end.

(** [data.split(":", 1)] when it yields two parts. *)
Fixpoint split_colon (s : ustr) : option (ustr * ustr) :=
  match s with
  | [] => None
  | c :: r =>
      if c =? 58 then Some ([], r)
      else option_map (fun '(a, b) => (c :: a, b)) (split_colon r)
  end.

(** [action, gid_s = q.data.split(":", 1); gid = int(gid_s)] *)
Definition parse_callback (data : ustr) : option (ustr * Z) :=
  match split_colon data with
  | Some (action, gid_s) => option_map (fun g => (action, g)) (py_int gid_s)
  | None => None
  end.

(** [resp.get("error") or resp.get("message") or resp.get("raw", "")] *)
Definition err_of_raw (resp : jobj) : json :=
  py_or (get resp (u "error")) (py_or (get resp (u "message")) (get_d resp (u "raw") (JStr []))).

Definition answer (t : option text) (alert : bool) : prog unit := say (OAnswer t alert).

(** [api_use(giftcert_id=gid, note=...)] payload *)
Definition use_payload (gid : Z) : jobj :=
  [(u "note", JStr s_use_note)] ++ (if gid =? 0 then [] else [(u "giftcert_id", JInt gid)]).

(** The card re-displayed after [use] and [annul]. *)
Definition redisplay (gid : Z) (fallback : text) : prog unit :=
  c <- fetch_cert_by_id gid ;;
  match c with
  | Some v =>
      if truthy v then
        match v with JObj d => say_card d | _ => Raise end
      else reply fallback
  | None => reply fallback
  end.

Definition dispatch_action (action : ustr) (gid : Z) : prog unit :=
  let g := py_str_Z gid in
  if ustr_eqb action (u "del") then
    answer None false ;;;
    say (OText (TDelAsk g)
               (InlineKb [[IBData BDelYes (u "del_yes:" ++ g); IBData BDelNo (u "del_no:" ++ g)]]))
  else if ustr_eqb action (u "del_no") then answer (Some TDelNo) false
  else if ustr_eqb action (u "del_yes") then
    answer (Some TDeleting) false ;;;
    resp <- api (CPost EDelete [(u "giftcert_id", JInt gid); (u "confirm", JBool true)]) ;;
    if negb (truthy (get resp (u "success"))) then
      reply (TDeleteError (firstn 300 (py_str (err_of_raw resp))))
    else reply (TDeleted g)
  else if ustr_eqb action (u "pdf") then
    answer (Some TPreparingPdf) false ;;;
    r <- download (id_code_params gid []) ;;
    match r with
    | DLOk bytes => say (ODoc (u "Certificate_" ++ g ++ u ".pdf") bytes (TCertPdfCaption g))
    | DLErr e => reply (TPdfError e)
    end
  else if ustr_eqb action (u "email") then
    answer (Some TSendingEmail) false ;;;
    resp <- api (CPost EResend [(u "giftcert_id", JInt gid)]) ;;
    if negb (truthy (get resp (u "success"))) then
      reply (TResendError (firstn 300 (py_str (err_of_raw resp))))
    else reply (TEmailSent g)
  else if ustr_eqb action (u "use") then
    answer (Some TMarkingUsed) false ;;;
    resp <- api (CUse (use_payload gid)) ;;
    if negb (truthy (get resp (u "success"))) then
      reply (TUseError (firstn 300 (py_str (err_of_raw resp))))
    else redisplay gid TReadyCheck
  else if ustr_eqb action (u "annul") then
    answer (Some TAnnulling) false ;;;
    resp <- api (CPost EAnnul [(u "giftcert_id", JInt gid); (u "reason", JStr s_annul_reason)]) ;;
    if negb (truthy (get resp (u "success"))) then
      reply (TAnnulError (firstn 300 (py_str (err_of_raw resp))))
    else redisplay gid (TAnnulled g)
  else answer (Some TUnknownAction) true.

(** [on_callback] for a callback query carrying [data]. *)
Definition on_callback (cfg : config) (user : option Z) (data : option ustr) : prog unit :=
  if negb (is_admin cfg user) then answer (Some TAccessRestricted) true
  else
    match data with
    | None | Some [] => Ret tt
    | Some d =>
        match parse_callback d with
        | None => answer (Some TBadCommand) true
        | Some (action, gid) => dispatch_action action gid
        end
    end.

(** [menu_router]; it calls [new_cmd] for the menu label, whose effect on
    [user_data] stays while its return value is dropped. *)
Definition menu_router (cfg : config) (user : option Z) (txt : ustr) (ud : udata) : prog udata :=
  let t := py_strip txt in
  if ustr_eqb t L_new then r <- new_cmd cfg user ud ;; Ret (fst r)
  else if ustr_eqb t L_journal then journal_cmd cfg user ;;; Ret ud
  else if ustr_eqb t L_sheet && negb (is_empty (sheet_url cfg)) then
    sheet_cmd cfg user ;;; Ret ud
  else Ret ud.

(** ** The application: handler group 0 and the ConversationHandler *)

(** A message as the handlers see it: a bot command with its
    [context.args], or text that is not a command. *)
Inductive msg_event : Type :=
| EvCmd (name : ustr) (args : list ustr)
| EvText (t : ustr).

Inductive event : Type :=
| EvMessage (chat user : Z) (m : msg_event)
| EvCallback (chat user : Z) (data : option ustr).

(** [filters.Regex(r"^label$")]: [re.search], where [$] also matches
    before a final newline. *)
Definition regex_full (label t : ustr) : bool :=
  ustr_eqb t label || ustr_eqb t (label ++ [10]).

Definition state_handler (cfg : config) (s : wstate) : ustr -> udata -> prog (udata * hret) :=
  match s with
  | AMOUNT => on_amount
  | RECIPIENT_NAME => on_recipient_name
  | DONOR_FIRST => on_donor_first
  | DONOR_LAST => on_donor_last
  | RECIPIENT_EMAIL => on_recipient_email
  | ACTION => on_action cfg
  end.

(** [ConversationHandler.check_update]: entry points first (allow_reentry),
    then the handlers of the current state ([filters.TEXT & ~filters.COMMAND]
    matches every non-command text), then the fallbacks. The fallback
    [MessageHandler(filters.Regex(r"^❌ Отмена$"), cancel)] is never
    reached: the state handlers accept every text first. *)
Definition conv_select (cfg : config) (user : Z) (st : option wstate) (m : msg_event)
  : option (udata -> prog (udata * hret)) :=
  match m with
  | EvCmd n _ =>
      if ustr_eqb n (u "new") then Some (new_cmd cfg (Some user))
      else match st with
           | Some _ => if ustr_eqb n (u "cancel") then Some cancel else None
           | None => None
           end
  | EvText t =>
      if regex_full L_new t then Some (new_cmd cfg (Some user))
      else match st with
           | Some s => Some (state_handler cfg s t)
           | None => None
           end
  end.

(** Conversations are keyed by (chat, user) ([per_chat=True, per_user=True]);
    [context.user_data] is keyed by user. *)
Record world : Type := mkWorld {
  convs : Z -> Z -> option wstate;
  udatas : Z -> udata
}.

Definition w0 : world := mkWorld (fun _ _ => None) (fun _ => ud_empty).

Definition set_ud (w : world) (user : Z) (ud : udata) : world :=
  mkWorld (convs w) (fun x => if x =? user then ud else udatas w x).

Definition set_conv (w : world) (chat user : Z) (r : hret) : world :=
  match r with
  | HNone => w
  | HEnd => mkWorld (fun c x => if (c =? chat) && (x =? user) then None else convs w c x) (udatas w)
  | HState s => mkWorld (fun c x => if (c =? chat) && (x =? user) then Some s else convs w c x) (udatas w)
  end.

Definition conv_or_router (cfg : config) (w : world) (chat user : Z) (m : msg_event) : prog world :=
  match conv_select cfg user (convs w chat user) m with
  | Some h =>
      r <- h (udatas w user) ;;
      Ret (set_conv (set_ud w user (fst r)) chat user (snd r))
  | None =>
      match m with
      | EvText t => ud' <- menu_router cfg (Some user) t (udatas w user) ;; Ret (set_ud w user ud')
      | EvCmd _ _ => Ret w
      end
  end.

(** Group 0 in the order of [app.add_handler]: the first handler whose
    check passes handles the update. *)
Definition handle_event (cfg : config) (w : world) (ev : event) : prog world :=
  match ev with
  | EvCallback _ user data => on_callback cfg (Some user) data ;;; Ret w
  | EvMessage chat user m =>
      match m with
      | EvCmd n args =>
          if ustr_eqb n (u "start") then start cfg (Some user) args ;;; Ret w
          else if ustr_eqb n (u "journal") then journal_cmd cfg (Some user) ;;; Ret w
          else if ustr_eqb n (u "sheet") then sheet_cmd cfg (Some user) ;;; Ret w
          else if ustr_eqb n (u "pdf") then pdf_cmd cfg (Some user) args ;;; Ret w
          else if ustr_eqb n (u "scan") then scan_cmd cfg (Some user) args ;;; Ret w
          else conv_or_router cfg w chat user m
      | EvText _ => conv_or_router cfg w chat user m
      end
  end.

(** ** Running a program against the backend *)

Record oracle : Type := mkOracle {
  o_api : jcall -> json;
  o_pdf : jobj -> dl_result
}.

Inductive trace_ev : Type :=
| TOut (o : out)
| TCall (c : jcall)
| TDownload (params : jobj).

(** The trace of a run and its result; [None] is an uncaught exception. *)
Fixpoint run {A} (o : oracle) (p : prog A) : list trace_ev * option A :=
  match p with
  | Ret a => ([], Some a)
  | Raise => ([], None)
  | Emit x k => let '(t, r) := run o k in (TOut x :: t, r)
  | Api c k => let '(t, r) := run o (k (o_api o c)) in (TCall c :: t, r)
  | Pdf ps k => let '(t, r) := run o (k (o_pdf o ps)) in (TDownload ps :: t, r)
  end.

(** The state after an event: the error handler drops a failed event. *)
Definition step_world (cfg : config) (o : oracle) (w : world) (ev : event) : world :=
  match snd (run o (handle_event cfg w ev)) with
  | Some w' => w'
  | None => w
  end.

Inductive reachable (cfg : config) : world -> Prop :=
| reach_init : reachable cfg w0
| reach_step : forall w o ev, reachable cfg w -> reachable cfg (step_world cfg o w ev).

(** ** Properties used in the statements *)

(** [calls_in P p]: along some sequence of backend responses, [p] issues
    a JSON call satisfying [P]. *)
Inductive calls_in {A} (P : jcall -> Prop) : prog A -> Prop :=
| ci_here c k : P c -> calls_in P (Api c k)
| ci_api c k r : calls_in P (k r) -> calls_in P (Api c k)
| ci_emit o k : calls_in P k -> calls_in P (Emit o k)
| ci_pdf ps k r : calls_in P (k r) -> calls_in P (Pdf ps k).

Definition is_delete (c : jcall) : Prop := exists p, c = CPost EDelete p.

(** Programs that issue no backend call on any path. *)
Inductive api_free {A} : prog A -> Prop :=
| af_ret a : api_free (Ret a)
| af_raise : api_free Raise
| af_emit o k : api_free k -> api_free (Emit o k)
| af_pdf ps k : (forall r, api_free (k r)) -> api_free (Pdf ps k).

(** Programs whose every backend call, on every path, satisfies [Q]. *)
Inductive calls_only {A} (Q : jcall -> Prop) : prog A -> Prop :=
| co_ret a : calls_only Q (Ret a)
| co_raise : calls_only Q Raise
| co_emit o k : calls_only Q k -> calls_only Q (Emit o k)
| co_api c k : Q c -> (forall r, calls_only Q (k r)) -> calls_only Q (Api c k)
| co_pdf ps k : (forall r, calls_only Q (k r)) -> calls_only Q (Pdf ps k).

(** Programs whose every normal result, along every path, satisfies [Q]. *)
Inductive results_in {A} (Q : A -> Prop) : prog A -> Prop :=
| ri_ret a : Q a -> results_in Q (Ret a)
| ri_raise : results_in Q Raise
| ri_emit o k : results_in Q k -> results_in Q (Emit o k)
| ri_api c k : (forall r, results_in Q (k r)) -> results_in Q (Api c k)
| ri_pdf ps k : (forall r, results_in Q (k r)) -> results_in Q (Pdf ps k).

(** [user_data["amount"]], when set, is positive. *)
Definition amount_pos (ud : udata) : Prop := forall n, ud_amount ud = Some n -> 0 < n.



(** The decimal value of a string of decimal digits, [None] if some
    character is not a decimal digit. *)
Fixpoint dec_acc (s : ustr) (acc : Z) : option Z :=
  match s with
  | [] => Some acc
  | c :: r => match py_decimal c with Some v => dec_acc r (acc * 10 + v) | None => None end
  end.
Definition dec_value (s : ustr) : option Z := dec_acc s 0.

(** HTML markup of a Telegram message body: text characters other than
    [<] and [>], and the tags [<b>], [</b>], [<code>], [</code>], listed
    in order. A [<] can only start one of these four tags, so a string has
    at most one tag list. *)
Inductive tag : Type := TagB | TagBEnd | TagCode | TagCodeEnd.

Inductive html_tags : ustr -> list tag -> Prop :=
| ht_nil : html_tags [] []
| ht_char c s ts : c <> 60 -> c <> 62 -> html_tags s ts -> html_tags (c :: s) ts
| ht_b s ts : html_tags s ts -> html_tags (60 :: 98 :: 62 :: s) (TagB :: ts)
| ht_b_end s ts : html_tags s ts -> html_tags (60 :: 47 :: 98 :: 62 :: s) (TagBEnd :: ts)
| ht_code s ts : html_tags s ts ->
    html_tags (60 :: 99 :: 111 :: 100 :: 101 :: 62 :: s) (TagCode :: ts)
| ht_code_end s ts : html_tags s ts ->
    html_tags (60 :: 47 :: 99 :: 111 :: 100 :: 101 :: 62 :: s) (TagCodeEnd :: ts).

Definition bold_pair : list tag := [TagB; TagBEnd].
Definition code_pair : list tag := [TagCode; TagCodeEnd].

(** Which optional lines of the card are present (recipient line, donor
    line, each timestamp line, order line) and the tags a card with these
    lines has: one pair per line. *)
Definition card_shape (cert : jobj) : option (bool * bool * list bool * bool) :=
  match field_stripped cert (u "recipient_name"), field_stripped cert (u "recipient_email"),
        str_or_empty (get cert (u "lastname")), str_or_empty (get cert (u "firstname")),
        timestamp_lines cert timestamp_keys,
        py_int_json (py_or (get cert (u "order_id")) (JInt 0)) with
  | Some rn, Some reml, Some ln, Some fn, Some _, Some oid =>
      Some (negb (is_empty rn && is_empty reml),
            negb (is_empty (py_strip (ln ++ u " " ++ fn))),
            map (fun '(k, _) =>
                   match field_stripped cert k with Some v => negb (is_empty v) | None => false end)
                timestamp_keys,
            negb (oid =? 0))
  | _, _, _, _, _, _ => None
  end.

Definition shape_tags (sh : bool * bool * list bool * bool) : list tag :=
  let '(recip, donor, ts, order) := sh in
  bold_pair ++ bold_pair ++ bold_pair ++ bold_pair ++ bold_pair ++ code_pair
  ++ (if recip then bold_pair else [])
  ++ (if donor then bold_pair else [])
  ++ List.concat (map (fun b : bool => if b then code_pair else []) ts)
  ++ (if order then code_pair else []).


(** ** Configuration read at import, and the start-up checks of [main] *)

(** [s.split(sep)] for a one-character separator: always one part more
    than there are separators. *)
Fixpoint py_split (sep : Z) (s : ustr) : list ustr :=
  match s with
  | [] => [[]]
  | c :: r =>
      if c =? sep then [] :: py_split sep r
      else match py_split sep r with
           | p :: ps => (c :: p) :: ps
           | [] => [[c]]
           end
  end.

(** [(os.getenv(name) or "")] *)
Definition env_or_empty (v : option ustr) : ustr :=
  match v with Some s => s | None => [] end.

(** [{int(x.strip()) for x in parts if x.strip().isdigit()}]; [None] is
    the [ValueError] of [int()], raised while the module is imported. *)
Fixpoint admin_ids_of (parts : list ustr) : option (list Z) :=
  match parts with
  | [] => Some []
  | x :: r =>
      if py_str_isdigit (py_strip x) then
        match py_int (py_strip x), admin_ids_of r with
        | Some z, Some ids => Some (z :: ids)
        | _, _ => None
        end
      else admin_ids_of r
  end.

(** [TG_ADMIN_IDS] *)
Definition parse_admin_ids (env : option ustr) : option (list Z) :=
  admin_ids_of (py_split 44 (env_or_empty env)).

(** [TG_ADMIN_IDS] and [SHEET_URL] from the environment. *)
Definition config_of (admin_env sheet_env : option ustr) : option config :=
  match parse_admin_ids admin_env with
  | Some ids => Some (mkConfig ids (py_strip (env_or_empty sheet_env)))
  | None => None
  end.

Fixpoint lstrip_ch (ch : Z) (s : ustr) : ustr :=
  match s with
  | c :: r => if c =? ch then lstrip_ch ch r else s
  | [] => []
  end.

(** [s.rstrip(ch)] *)
Definition rstrip_ch (ch : Z) (s : ustr) : ustr := rev (lstrip_ch ch (rev s)).

(** [OC_BASE_URL = (os.getenv("OC_BASE_URL") or "").strip().rstrip("/")];
    the other settings are [(os.getenv(name) or "").strip()]. *)
Definition env_str (v : option ustr) : ustr := py_strip (env_or_empty v).
Definition oc_base_url (v : option ustr) : ustr := rstrip_ch 47 (env_str v).

Definition api_path : ustr := u "index.php?route=extension/module/giftcert_pdf_api/".

(** [API_CREATE], ..., [API_USE]:
    [(OC_BASE_URL + "/" if OC_BASE_URL else "") + "index.php?route=.../<route>"] *)
Definition api_url (base route : ustr) : ustr :=
  (if is_empty base then [] else base ++ u "/") ++ api_path ++ route.

(** The route of the endpoint each backend call is sent to. *)
Definition call_route (c : jcall) : ustr :=
  match c with
  | CCreate _ => u "create"
  | CList _ => u "list"
  | CGet _ => u "get"
  | CUse _ => u "use"
  | CPost EResend _ => u "resend"
  | CPost EAnnul _ => u "annul"
  | CPost EDelete _ => u "delete"
  end.

Inductive exit_reason : Type := NoBotToken | NoApiToken | BadBaseUrl | TemplateBaseUrl.

(** The checks at the top of [main]; [Some r] is the [SystemExit]. *)
Definition main_check (bot_token api_token base : ustr) : option exit_reason :=
  if is_empty bot_token then Some NoBotToken
  else if is_empty api_token then Some NoApiToken
  else if negb (py_startswith base (u "http")) then Some BadBaseUrl
  else if py_contains base (u "your-domain") then Some TemplateBaseUrl
  else None.

(** ** The HTTP layer under the [api_*] helpers *)

(** What [requests.get]/[requests.post] gives: the [RequestException] it
    raises (its text), or a response with its status code, the value of
    [resp.json()] ([None] when it raises), [resp.text] and
    [resp.content]. *)
Inductive http_result : Type :=
| HttpNetErr (e : ustr)
| HttpResp (status : Z) (body : option json) (txt : ustr) (content : list Z).

Definition safe_json (status : Z) (body : option json) (txt : ustr) : json :=
  match body with
  | Some j => j
  | None => JObj [(u "success", JBool false);
                  (u "error", JStr (u "Bad response: " ++ py_str_Z status));
                  (u "raw", JStr txt)]
  end.

(** The value [api_create], [api_list], [api_post], [api_get] and
    [api_use] return. *)
Definition api_result (h : http_result) : json :=
  match h with
  | HttpNetErr e => JObj [(u "success", JBool false); (u "error", JStr (u "Network error: " ++ e))]
  | HttpResp st body txt _ => safe_json st body txt
  end.

(** [api_download_pdf]: the bytes, or the text of its [RuntimeError]. *)
Definition pdf_result (h : http_result) : dl_result :=
  match h with
  | HttpNetErr e => DLErr (u "Network error: " ++ e)
  | HttpResp st _ txt bytes =>
      if st =? 200 then DLOk bytes
      else DLErr (u "PDF download failed: " ++ py_str_Z st ++ u " " ++ firstn 200 txt)
  end.

(** A backend reached over HTTP: [http c] answers the request of the JSON
    call [c], [http_pdf ps] the PDF request with parameters [ps]. *)
Definition http_oracle (http : jcall -> http_result) (http_pdf : jobj -> http_result) : oracle :=
  mkOracle (fun c => api_result (http c)) (fun ps => pdf_result (http_pdf ps)).

(** The payload or query parameters of a call. *)
Definition call_params (c : jcall) : jobj :=
  match c with
  | CCreate p | CList p | CGet p | CUse p | CPost _ p => p
  end.

(** Programs whose every PDF download, on every path, satisfies [R]. *)
Inductive downloads_only {A} (R : jobj -> Prop) : prog A -> Prop :=
| do_ret a : downloads_only R (Ret a)
| do_raise : downloads_only R Raise
| do_emit o k : downloads_only R k -> downloads_only R (Emit o k)
| do_api c k : (forall r, downloads_only R (k r)) -> downloads_only R (Api c k)
| do_pdf ps k : R ps -> (forall r, downloads_only R (k r)) -> downloads_only R (Pdf ps k).

(** The buttons of an inline keyboard. *)
Definition kb_buttons (m : markup) : list ibtn :=
  match m with InlineKb rows => List.concat rows | _ => [] end.

Definition btn_label (b : ibtn) : blabel :=
  match b with IBData l _ | IBUrl l _ => l end.


(** ** Concrete scenarios

    User 7 talks to the bot in chat 1 (and chat 2).  [cfg_open] leaves
    [TG_ADMIN_IDS] and [SHEET_URL] empty; under [cfg_admin1] only user 1
    is privileged. *)
Definition cfg_open : config := mkConfig [] [].
Definition cfg_admin1 : config := mkConfig [1] [].

Definition ev_text (chat user : Z) (t : ustr) : event := EvMessage chat user (EvText t).
Definition ev_cmd (chat user : Z) (n : string) : event := EvMessage chat user (EvCmd (u n) []).

(** A backend that creates certificate 5 and serves its PDF. *)
Definition resp_created : json :=
  JObj [(u "success", JBool true); (u "giftcert_id", JInt 5); (u "code", JStr (u "123456"))].
Definition o_created : oracle := mkOracle (fun _ => resp_created) (fun _ => DLOk [37; 80; 68; 70]).


(** [user_data] after the amount 70 and four skipped optional steps. *)
Definition ud_70 : udata := mkUD (Some 70) (Some []) (Some []) (Some []) (Some []).

(** The conversation of user 7 in chat 1 in state [s]. *)
Definition world_at (s : wstate) (ud : udata) : world :=
  mkWorld (fun c x => if (c =? 1) && (x =? 7) then Some s else None) (fun _ => ud).

(** User 7 fills the wizard in chat 1 up to the delivery choice, then
    starts a new wizard in chat 2. *)
Definition two_chat_events : list event :=
  [ev_cmd 1 7 "new"; ev_text 1 7 (u "70"); ev_text 1 7 (u "-"); ev_text 1 7 (u "-");
   ev_text 1 7 (u "-"); ev_text 1 7 (u "-"); ev_cmd 2 7 "new"].
Definition two_chat_world : world := fold_left (step_world cfg_open o_created) two_chat_events w0.

(** A certificate whose recipient name carries markup. *)
Definition cert_markup : jobj :=
  [(u "giftcert_id", JInt 5); (u "code", JStr (u "123456")); (u "amount", JInt 70);
   (u "status", JStr (u "sent")); (u "recipient_name", JStr (u "<b>Eve</b> <code>x"))].

(** ** Identity gate *)

(** C9: [is_admin] is a total boolean function of the configured set and
    the caller: true exactly when the set is empty (fail-open) or the
    caller's id is in it. *)
Theorem is_admin_spec (cfg : config) (user : option Z) :
  is_admin cfg user = true <->
  admin_ids cfg = [] \/ In (caller_uid user) (admin_ids cfg).
Proof.
  unfold is_admin. destruct (admin_ids cfg) as [|i ids].
  - cbn. split; auto.
  - cbn [is_empty]. rewrite orb_false_l, existsb_exists. split.
    + intros [x [Hin Heq]]. apply Z.eqb_eq in Heq. subst x.
      right. exact Hin.
    + intros [Hnil | Hin]; [discriminate|].
      exists (caller_uid user). split; [exact Hin | apply Z.eqb_refl].
Qed.

(** ** Scan router *)

Lemma start_code_nil : start_code [] = [].
Proof. reflexivity. Qed.

(** C1: an anonymous caller who sends [/start <payload>] or [/scan <arg>]
    with a non-empty extracted code gets exactly the promotional text:
    the handler is that one message, so for every backend (every answer
    of the [get] endpoint) the run issues no call and its output is the
    same, and the bot state is untouched. *)
Theorem anonymous_scan_promo_only (cfg : config) (w : world) (o : oracle)
    (chat user : Z) (cmd : ustr) (args : list ustr) :
  is_admin cfg (Some user) = false ->
  (cmd = u "start" /\ start_code (start_payload args) <> [] \/
   cmd = u "scan" /\ digits_only (hd [] args) <> []) ->
  handle_event cfg w (EvMessage chat user (EvCmd cmd args))
    = Emit (OText TPromo NoMarkup) (Ret w) /\
  run o (handle_event cfg w (EvMessage chat user (EvCmd cmd args)))
    = ([TOut (OText TPromo NoMarkup)], Some w).
Proof.
  intros Hadm Hcmd.
  assert (Hprog : handle_event cfg w (EvMessage chat user (EvCmd cmd args))
                  = Emit (OText TPromo NoMarkup) (Ret w)).
  { destruct Hcmd as [[-> Hc] | [-> Hc]].
    - cbn [handle_event ustr_eqb u map list_ascii_of_string nat_of_ascii].
      vm_compute (Z.eqb _ _); cbn [andb].
      unfold start. destruct (start_payload args) as [|c p] eqn:Hp.
      + rewrite start_code_nil in Hc. contradiction.
      + cbn [is_empty negb].
        destruct (start_code (c :: p)) as [|d q]; [contradiction|].
        cbn [is_empty negb]. rewrite Hadm. reflexivity.
    - destruct args as [|a rest]; [contradiction|].
      cbn [handle_event]. vm_compute (ustr_eqb _ (u "start")).
      vm_compute (ustr_eqb _ (u "journal")). vm_compute (ustr_eqb _ (u "sheet")).
      vm_compute (ustr_eqb _ (u "pdf")). vm_compute (ustr_eqb _ (u "scan")).
      unfold scan_cmd. cbn [hd] in Hc.
      destruct (digits_only a) as [|d q]; [contradiction|].
      cbn [is_empty negb]. rewrite Hadm. reflexivity. }
  split; [exact Hprog|]. rewrite Hprog. reflexivity.
Qed.

(** ** Wizard: routing and the delivery choice *)

Lemma ustr_eqb_eq (a b : ustr) : ustr_eqb a b = true <-> a = b.
Proof.
  revert b; induction a as [|x a IH]; intros [|y b]; cbn; try (split; congruence).
  rewrite andb_true_iff, Z.eqb_eq, IH. split; [intros [-> ->]; reflexivity|].
  intros H; injection H; auto.
Qed.


Lemma regex_new_strip (t : ustr) : regex_full L_new t = true -> py_strip t = L_new.
Proof.
  unfold regex_full. intros H. apply orb_true_iff in H.
  destruct H as [H | H]; apply ustr_eqb_eq in H; subst t; vm_compute; reflexivity.
Qed.

(** A non-command text in a wizard state goes to that state's handler. *)
Lemma route_text (cfg : config) (w : world) (chat user : Z) (t : ustr) (s : wstate) :
  convs w chat user = Some s -> regex_full L_new t = false ->
  handle_event cfg w (EvMessage chat user (EvText t))
  = bind (state_handler cfg s t (udatas w user))
         (fun r => Ret (set_conv (set_ud w user (fst r)) chat user (snd r))).
Proof.
  intros Hs Hre. cbn [handle_event]. unfold conv_or_router, conv_select.
  rewrite Hs, Hre. reflexivity.
Qed.

Lemma set_conv_state (w : world) (chat user : Z) (s : wstate) :
  convs (set_conv w chat user (HState s)) chat user = Some s.
Proof. cbn. rewrite !Z.eqb_refl. reflexivity. Qed.

Lemma set_conv_udatas (w : world) (chat user : Z) (r : hret) :
  udatas (set_conv w chat user r) = udatas w.
Proof. destruct r; reflexivity. Qed.

Lemma set_ud_same (w : world) (user : Z) (ud : udata) :
  udatas (set_ud w user ud) user = ud.
Proof. cbn. rewrite Z.eqb_refl. reflexivity. Qed.

(** Programs that issue no JSON call on any path. *)
Lemma api_free_bind {A B} (m : prog A) (f : A -> prog B) :
  api_free m -> (forall a, api_free (f a)) -> api_free (bind m f).
Proof.
  intros Hm Hf. induction Hm; cbn; try constructor; auto.
Qed.

Lemma api_free_no_call {A} (P : jcall -> Prop) (p : prog A) :
  api_free p -> ~ calls_in P p.
Proof.
  intros Hf Hc. induction Hc; inversion Hf; subst; eauto.
Qed.

Ltac api_free_tac :=
  repeat first
    [ apply af_ret | apply af_raise | apply af_emit
    | apply af_pdf; intros
    | apply api_free_bind; [| intros]
    | progress cbn beta iota zeta
    | match goal with |- api_free (match ?x with _ => _ end) => destruct x end
    | match goal with |- api_free (let '(_, _) := ?x in _) => destruct x end
    | progress (unfold reply, say, lift, download, sheet_link) ].

(** C8: at the delivery choice, choosing Email while the collected
    recipient e-mail is empty sends only the corrective message, issues no
    backend call, keeps the conversation in [ACTION] and leaves
    [user_data] as it was. *)
Theorem email_choice_without_address_reprompts (cfg : config) (w : world) (o : oracle)
    (chat user : Z) (t : ustr) :
  convs w chat user = Some ACTION ->
  ud_str (ud_recipient_email (udatas w user)) = [] ->
  py_strip t = L_email ->
  exists w',
    run o (handle_event cfg w (EvMessage chat user (EvText t)))
      = ([TOut (OText TEmailMissing NoMarkup)], Some w') /\
    convs w' chat user = Some ACTION /\
    (forall x, udatas w' x = udatas w x).
Proof.
  intros Hs Hem Ht.
  assert (Hre : regex_full L_new t = false).
  { destruct (regex_full L_new t) eqn:E; [|reflexivity].
    apply regex_new_strip in E. rewrite Ht in E. discriminate. }
  rewrite (route_text cfg w chat user t ACTION Hs Hre).
  cbn [state_handler]. unfold on_action. rewrite Ht.
  vm_compute (ustr_eqb L_email L_cancel). vm_compute (ustr_eqb L_email L_email).
  rewrite Hem. cbn.
  eexists. split; [reflexivity|]. split.
  - cbn. rewrite !Z.eqb_refl. reflexivity.
  - intros x. cbn.
    destruct (x =? user) eqn:E; [apply Z.eqb_eq in E; subst; reflexivity | reflexivity].
Qed.



(** ** Wizard: the amount step *)

Section AmountStep.
Context {UL : PyUnicodeLaws U}.

Lemma lstrip_length (s : ustr) : (List.length (lstrip s) <= List.length s)%nat.
Proof. induction s as [|c s IH]; cbn; [lia|]. destruct (py_isspace c); cbn; lia. Qed.

Lemma py_strip_length (s : ustr) : (List.length (py_strip s) <= List.length s)%nat.
Proof.
  unfold py_strip. rewrite length_rev.
  pose proof (lstrip_length (rev (lstrip s))). rewrite length_rev in H.
  pose proof (lstrip_length s). lia.
Qed.

Lemma lstrip_id (s : ustr) :
  forallb (fun c => negb (py_isspace c)) s = true -> lstrip s = s.
Proof.
  destruct s as [|c s]; cbn; [reflexivity|].
  intros H. apply andb_true_iff in H as [H _]. destruct (py_isspace c); [discriminate|reflexivity].
Qed.

Lemma py_strip_id (s : ustr) :
  forallb (fun c => negb (py_isspace c)) s = true -> py_strip s = s.
Proof.
  intros H. unfold py_strip. rewrite (lstrip_id s H), lstrip_id.
  - apply rev_involutive.
  - apply forallb_forall. intros x Hx. apply in_rev in Hx.
    exact (proj1 (forallb_forall _ _) H x Hx).
Qed.

Lemma dec_acc_digits (s : ustr) (acc n : Z) :
  dec_acc s acc = Some n -> forall c, In c s -> exists v, py_decimal c = Some v.
Proof.
  revert acc; induction s as [|d s IH]; intros acc H c Hc; cbn in *; [contradiction|].
  destruct (py_decimal d) as [v|] eqn:Hd; [|discriminate].
  destruct Hc as [<- | Hc]; [eauto | eapply IH; eauto].
Qed.

Lemma int_digits_dec (s : ustr) (acc n : Z) (k : nat) :
  dec_acc s acc = Some n -> int_digits s acc k = Some (n, (k + List.length s)%nat).
Proof.
  revert acc k; induction s as [|c s IH]; intros acc k H; cbn in *.
  - injection H as <-. rewrite Nat.add_0_r. reflexivity.
  - destruct (py_decimal c) as [v|] eqn:Hc; [|discriminate].
    assert (Hc95 : (c =? 95) = false).
    { destruct (Z.eqb_spec c 95) as [->|]; [|reflexivity].
      apply decimal_isdigit in Hc. destruct punct_not_digit as [_ [_ H95]].
      congruence. }
    rewrite Hc95, (IH _ (S k) H). f_equal. f_equal. lia.
Qed.

(** [int(s)] on a non-empty string of at most 4300 decimal digits is its
    decimal value. *)
Lemma py_int_decimal (s : ustr) (n : Z) :
  s <> [] -> dec_value s = Some n -> (List.length s <= 4300)%nat -> py_int s = Some n.
Proof.
  intros Hne Hv Hlen.
  assert (Hdig : forall c, In c s -> py_isdigit c = true).
  { intros c Hc. destruct (dec_acc_digits s 0 n Hv c Hc) as [v Hd].
    exact (decimal_isdigit c v Hd). }
  unfold py_int. rewrite py_strip_id.
  2: { apply forallb_forall. intros c Hc. rewrite (digit_not_space c (Hdig c Hc)). reflexivity. }
  destruct s as [|c r]; [contradiction|].
  destruct punct_not_digit as [H43 [H45 _]].
  assert (Hc := Hdig c (or_introl eq_refl)).
  rewrite (proj2 (Z.eqb_neq c 43)) by congruence.
  rewrite (proj2 (Z.eqb_neq c 45)) by congruence.
  unfold dec_value in Hv. cbn in Hv. unfold int_unsigned.
  destruct (py_decimal c) as [v|] eqn:Hd; [|discriminate].
  rewrite (int_digits_dec r v n 1 Hv). cbn in Hlen.
  assert (E : (1 + List.length r <=? 4300)%nat = true) by (apply Nat.leb_le; lia).
  rewrite E. reflexivity.
Qed.

Lemma dec_value_isdigit (s : ustr) (n : Z) :
  s <> [] -> dec_value s = Some n -> py_str_isdigit s = true.
Proof.
  intros Hne Hv. unfold py_str_isdigit. destruct s as [|c r]; [contradiction|].
  cbn [is_empty negb andb]. apply forallb_forall. intros x Hx.
  destruct (dec_acc_digits _ 0 n Hv x Hx) as [v Hd]. exact (decimal_isdigit x v Hd).
Qed.

(** C4 (as the code does it): at the amount step, a non-command text
    (other than the new-certificate menu label, at most 4096 characters as
    Telegram delivers it) is stripped of surrounding whitespace first.  If
    the stripped text is a non-empty string of decimal digits with a
    positive value, that value is stored as [amount] and the conversation
    moves to [RECIPIENT_NAME]; if it is empty, contains a character that is
    not a digit, or is all zeros, the bot re-prompts, the conversation stays
    in [AMOUNT] and [user_data] is unchanged. *)
Theorem amount_step_validates_stripped (cfg : config) (w : world) (o : oracle)
    (chat user : Z) (t : ustr) :
  convs w chat user = Some AMOUNT ->
  regex_full L_new t = false ->
  (List.length t <= 4096)%nat ->
  (forall n, py_strip t <> [] -> dec_value (py_strip t) = Some n -> 0 < n ->
     exists w',
       run o (handle_event cfg w (EvMessage chat user (EvText t)))
         = ([TOut (OText TAskRecipientName NoMarkup)], Some w') /\
       convs w' chat user = Some RECIPIENT_NAME /\
       ud_amount (udatas w' user) = Some n) /\
  (py_strip t = [] \/ existsb (fun c => negb (py_isdigit c)) (py_strip t) = true
   \/ dec_value (py_strip t) = Some 0 ->
     exists w',
       run o (handle_event cfg w (EvMessage chat user (EvText t)))
         = ([TOut (OText TAmountHint NoMarkup)], Some w') /\
       convs w' chat user = Some AMOUNT /\
       udatas w' user = udatas w user).
Proof.
  intros Hs Hre Hlen.
  rewrite (route_text cfg w chat user t AMOUNT Hs Hre). cbn [state_handler].
  pose proof (py_strip_length t) as Hsl.
  split.
  - intros n Hne Hv Hpos. unfold on_amount.
    rewrite (dec_value_isdigit _ n Hne Hv).
    rewrite (py_int_decimal _ n Hne Hv) by lia. cbn [lift bind negb].
    rewrite (proj2 (Z.leb_gt n 0) Hpos). cbn.
    eexists. split; [reflexivity|]. cbn. rewrite !Z.eqb_refl. split; reflexivity.
  - intros Hbad. unfold on_amount.
    assert (Hcase : py_str_isdigit (py_strip t) = false \/ dec_value (py_strip t) = Some 0).
    { destruct Hbad as [H0 | [H1 | H2]]; [left | left | right; exact H2].
      - rewrite H0. reflexivity.
      - unfold py_str_isdigit. apply existsb_exists in H1 as [c [Hc Hnd]].
        destruct (forallb py_isdigit (py_strip t)) eqn:E; [|apply andb_false_r].
        rewrite (proj1 (forallb_forall _ _) E c Hc) in Hnd. discriminate. }
    destruct Hcase as [Hnd | Hz].
    + rewrite Hnd. cbn. eexists. split; [reflexivity|].
      cbn. rewrite !Z.eqb_refl. split; reflexivity.
    + destruct (py_strip t) as [|c r] eqn:Ht; [cbn; eexists; split; [reflexivity|];
        cbn; rewrite !Z.eqb_refl; split; reflexivity|].
      rewrite <- Ht in *.
      assert (Hne : py_strip t <> []) by (rewrite Ht; discriminate).
      rewrite (dec_value_isdigit _ 0 Hne Hz).
      rewrite (py_int_decimal _ 0 Hne Hz) by lia. cbn.
      eexists. split; [reflexivity|]. cbn. rewrite !Z.eqb_refl. split; reflexivity.
Qed.

End AmountStep.


(** ** Callback buttons: the two-step delete *)

Lemma calls_only_bind {A B} (Q : jcall -> Prop) (m : prog A) (f : A -> prog B) :
  calls_only Q m -> (forall a, calls_only Q (f a)) -> calls_only Q (bind m f).
Proof.
  intros Hm Hf. induction Hm; cbn; try constructor; auto.
Qed.

Lemma calls_in_only {A} (P Q : jcall -> Prop) (p : prog A) :
  calls_in P p -> calls_only Q p -> exists c, P c /\ Q c.
Proof.
  intros Hc Ho. induction Hc; inversion Ho; subst; eauto.
Qed.

Ltac calls_only_tac :=
  repeat first
    [ apply co_ret | apply co_raise | apply co_emit
    | apply co_pdf; intros
    | apply co_api; [| intros]
    | apply calls_only_bind; [| intros]
    | progress cbn beta iota zeta
    | match goal with |- calls_only _ (match ?x with _ => _ end) => destruct x end
    | match goal with |- calls_only _ (let '(_, _) := ?x in _) => destruct x end
    | progress (unfold reply, say, lift, download, api, answer, redisplay,
                fetch_cert_by_id, say_card) ].

Section Callbacks.
Context {UL : PyUnicodeLaws U}.

Lemma pow10_succ (k : nat) : 10 ^ Z.of_nat (S k) = 10 ^ Z.of_nat k * 10.
Proof. rewrite Nat2Z.inj_succ, Z.pow_succ_r by lia. lia. Qed.

(** Every value [int()] accepts has at most 4300 decimal digits. *)
Lemma int_digits_bound (N : nat) : forall (s : ustr) (acc z : Z) (n m : nat),
  (List.length s <= N)%nat -> int_digits s acc n = Some (z, m) ->
  0 <= acc < 10 ^ Z.of_nat n -> 0 <= z < 10 ^ Z.of_nat m.
Proof.
  induction N as [|N IH]; intros s acc z n m Hl H Hacc.
  - destruct s; cbn in Hl; [|lia]. cbn in H. injection H as <- <-. exact Hacc.
  - destruct s as [|c r]; cbn in H.
    + injection H as <- <-. exact Hacc.
    + cbn in Hl. pose proof (pow10_succ n) as Hp.
      destruct (c =? 95).
      * destruct r as [|d r']; [discriminate|].
        destruct (py_decimal d) as [v|] eqn:Hd; [|discriminate].
        apply decimal_range in Hd.
        apply (IH r' (acc * 10 + v) z (S n) m); [cbn in Hl; lia | exact H | nia].
      * destruct (py_decimal c) as [v|] eqn:Hd; [|discriminate].
        apply decimal_range in Hd.
        apply (IH r (acc * 10 + v) z (S n) m); [lia | exact H | nia].
Qed.

Lemma int_unsigned_bound (s : ustr) (z : Z) :
  int_unsigned s = Some z -> 0 <= z < 10 ^ 4300.
Proof.
  unfold int_unsigned. destruct s as [|c r]; [discriminate|].
  destruct (py_decimal c) as [v|] eqn:Hd; [|discriminate].
  destruct (int_digits r v 1) as [[z' m]|] eqn:Hi; [|discriminate].
  destruct (Nat.leb_spec m 4300); [|discriminate]. intros E; injection E as <-.
  apply decimal_range in Hd.
  assert (Hb := int_digits_bound _ r v z' 1 m (le_n _) Hi ltac:(cbn; lia)).
  assert (Hm : 10 ^ Z.of_nat m <= 10 ^ 4300) by (apply Z.pow_le_mono_r; lia).
  revert Hb Hm. generalize (10 ^ Z.of_nat m) (10 ^ 4300). intros. lia.
Qed.

Lemma py_int_bound (s : ustr) (z : Z) : py_int s = Some z -> Z.abs z < 10 ^ 4300.
Proof.
  unfold py_int. generalize (int_unsigned_bound); generalize (10 ^ 4300); intros B HB.
  destruct (py_strip s) as [|c r]; [discriminate|].
  destruct (c =? 43); [intros H; apply HB in H; lia|].
  destruct (c =? 45).
  - destruct (int_unsigned r) as [v|] eqn:Hv; cbn; [|discriminate].
    intros E; injection E as <-. apply HB in Hv. lia.
  - intros H; apply HB in H; lia.
Qed.

Lemma dec_acc_app (a b : ustr) (x : Z) :
  dec_acc (a ++ b) x = match dec_acc a x with Some y => dec_acc b y | None => None end.
Proof.
  revert x; induction a as [|c a IH]; intros x; cbn; [reflexivity|].
  destruct (py_decimal c); [apply IH | reflexivity].
Qed.

(** The digit loop of [str(int)]: it prepends the decimal digits of [n],
    without leading zeros, when the fuel suffices. *)
Lemma dec_digits_spec (f : nat) : forall (n : Z) (acc : ustr),
  0 <= n < 10 ^ Z.of_nat f -> (1 <= f)%nat ->
  exists ds, dec_digits f n acc = ds ++ acc /\ ds <> [] /\
    Forall (fun c => 48 <= c <= 57) ds /\ dec_value ds = Some n /\
    (List.length ds = 1%nat \/ 10 ^ (Z.of_nat (List.length ds) - 1) <= n).
Proof.
  induction f as [|f IH]; intros n acc Hn Hf; [lia|].
  cbn [dec_digits].
  assert (Hm : 0 <= n mod 10 < 10) by (apply Z.mod_pos_bound; lia).
  destruct (Z.ltb_spec n 10).
  - exists [48 + n mod 10]. split; [reflexivity|]. split; [discriminate|].
    split; [constructor; [lia | constructor]|]. split; [|left; reflexivity].
    unfold dec_value; cbn [dec_acc]. rewrite decimal_ascii by lia.
    rewrite Z.mod_small by lia. f_equal. lia.
  - rewrite pow10_succ in Hn.
    assert (Hq : 0 <= n / 10 < 10 ^ Z.of_nat f).
    { split; [apply Z.div_pos; lia|]. apply Z.div_lt_upper_bound; lia. }
    destruct f as [|f]; [cbn in Hn; lia|].
    destruct (IH (n / 10) ((48 + n mod 10) :: acc) Hq ltac:(lia))
      as [ds [Heq [Hne [Hall [Hv Hlen]]]]].
    exists (ds ++ [48 + n mod 10]). rewrite <- app_assoc. split; [exact Heq|].
    split; [destruct ds; [contradiction | discriminate]|].
    split; [apply Forall_app; split; [exact Hall | constructor; [lia | constructor]]|].
    split.
    + unfold dec_value in *. rewrite dec_acc_app, Hv. cbn [dec_acc].
      rewrite decimal_ascii by lia. f_equal.
      rewrite (Z.div_mod n 10) at 3 by lia. lia.
    + right. rewrite length_app. cbn [List.length].
      assert (Hd := Z.mul_div_le n 10 ltac:(lia)).
      destruct ds as [|c0 ds']; [contradiction|].
      destruct Hlen as [H1 | H1].
      * rewrite H1. cbn. lia.
      * replace (Z.of_nat (List.length (c0 :: ds') + 1) - 1)
          with (Z.of_nat (List.length (c0 :: ds')) - 1 + 1) by lia.
        rewrite Z.pow_add_r, Z.pow_1_r by (cbn [List.length]; lia). nia.
Qed.

Lemma ascii_digits_isdigit (ds : ustr) :
  Forall (fun c => 48 <= c <= 57) ds -> forall c, In c ds -> py_isdigit c = true.
Proof.
  intros H c Hc. rewrite Forall_forall in H.
  exact (decimal_isdigit c _ (decimal_ascii c (H c Hc))).
Qed.

Lemma int_unsigned_decimal (s : ustr) (n : Z) :
  s <> [] -> dec_value s = Some n -> (List.length s <= 4300)%nat -> int_unsigned s = Some n.
Proof.
  intros Hne Hv Hlen. destruct s as [|c r]; [contradiction|].
  unfold dec_value in Hv. cbn in Hv. unfold int_unsigned.
  destruct (py_decimal c) as [v|] eqn:Hd; [|discriminate].
  rewrite (int_digits_dec r v n 1 Hv). cbn in Hlen.
  assert (E : (1 + List.length r <=? 4300)%nat = true) by (apply Nat.leb_le; lia).
  rewrite E. reflexivity.
Qed.

(** [int(str(gid)) == gid] for every [gid] of at most 4300 digits. *)
Lemma py_int_py_str_Z (gid : Z) : Z.abs gid < 10 ^ 4300 -> py_int (py_str_Z gid) = Some gid.
Proof.
  intros Hb. unfold py_str_Z.
  assert (Hpow : forall k, 10 ^ 4300 <= 10 ^ k -> Z.abs gid < 10 ^ k).
  { intros k Hk. revert Hb Hk. generalize (10 ^ 4300) (10 ^ k). intros. lia. }
  clear Hb.
  set (n := Z.abs gid).
  assert (Hfuel : 0 <= n < 10 ^ Z.of_nat (S (Z.to_nat (Z.log2 n)))).
  { split; [apply Z.abs_nonneg|].
    rewrite Nat2Z.inj_succ, Z2Nat.id by apply Z.log2_nonneg.
    destruct (Z.eq_dec n 0) as [E|E]; [rewrite E; cbn; lia|].
    destruct (Z.log2_spec n) as [_ Hl]; [lia|].
    eapply Z.lt_le_trans; [exact Hl|].
    apply Z.pow_le_mono_l. split; [lia|lia]. }
  destruct (dec_digits_spec _ n [] Hfuel ltac:(lia)) as [ds [Heq [Hne [Hall [Hv Hlen]]]]].
  rewrite Heq, app_nil_r.
  assert (Hl : (List.length ds <= 4300)%nat).
  { destruct Hlen as [H1 | H1]; [lia|].
    destruct (Nat.leb_spec (List.length ds) 4300); [assumption|].
    assert (Hk := Hpow (Z.of_nat (List.length ds) - 1)
                    ltac:(apply Z.pow_le_mono_r; lia)).
    fold n in Hk. lia. }
  assert (Hdig := ascii_digits_isdigit ds Hall).
  destruct (Z.ltb_spec gid 0).
  - unfold py_int. rewrite py_strip_id.
    2: { cbn [forallb]. apply andb_true_iff. split; [reflexivity|].
         apply forallb_forall. intros c Hc. rewrite (digit_not_space c (Hdig c Hc)). reflexivity. }
    cbn [Z.eqb Pos.eqb]. rewrite (int_unsigned_decimal ds n Hne Hv Hl). cbn. f_equal. lia.
  - rewrite (py_int_decimal ds n Hne Hv Hl). f_equal. lia.
Qed.

Lemma on_callback_admin (cfg : config) (user : option Z) (d : ustr) (action : ustr) (gid : Z) :
  is_admin cfg user = true -> parse_callback d = Some (action, gid) ->
  on_callback cfg user (Some d) = dispatch_action action gid.
Proof.
  intros Ha Hp. unfold on_callback. rewrite Ha. cbn [negb].
  destruct d as [|c r]; [discriminate|]. rewrite Hp. reflexivity.
Qed.

(** The only backend delete a callback can issue is the one of a
    [del_yes:<id>] button, with [confirm] set. *)
Lemma on_callback_delete_calls (cfg : config) (user : option Z) (data : option ustr) :
  calls_only (fun c => is_delete c -> exists d gid, data = Some d /\
                parse_callback d = Some (u "del_yes", gid) /\
                c = CPost EDelete [(u "giftcert_id", JInt gid); (u "confirm", JBool true)])
    (on_callback cfg user data).
Proof.
  unfold on_callback. destruct (negb (is_admin cfg user)); [calls_only_tac|].
  destruct data as [[|c r]|]; [calls_only_tac | | calls_only_tac].
  destruct (parse_callback (c :: r)) as [[action gid]|] eqn:Hp; [|calls_only_tac].
  unfold dispatch_action.
  destruct (ustr_eqb action (u "del")); [calls_only_tac|].
  destruct (ustr_eqb action (u "del_no")); [calls_only_tac|].
  destruct (ustr_eqb action (u "del_yes")) eqn:Ey.
  - apply ustr_eqb_eq in Ey. subst action.
    calls_only_tac. intros _. eauto.
  - calls_only_tac; intros [p Hp']; discriminate.
Qed.

End Callbacks.

(** C6: for a privileged caller, a [del:<id>] button issues no backend
    call: it only answers the query and sends the confirmation prompt whose
    two buttons carry [del_yes:<id>] and [del_no:<id>] for the same id; a
    [del_no:<id>] button issues no backend call; a [del_yes:<id>] button
    issues the delete call with [confirm] set; and no callback data other
    than a [del_yes:<id>] button ever leads to a delete call. *)
Theorem delete_two_step {UL : PyUnicodeLaws U} (cfg : config) (user : option Z)
    (d : ustr) (gid : Z) :
  is_admin cfg user = true ->
  (parse_callback d = Some (u "del", gid) ->
     on_callback cfg user (Some d)
       = (answer None false ;;;
          say (OText (TDelAsk (py_str_Z gid))
                 (InlineKb [[IBData BDelYes (u "del_yes:" ++ py_str_Z gid);
                             IBData BDelNo (u "del_no:" ++ py_str_Z gid)]]))) /\
     (forall P, ~ calls_in P (on_callback cfg user (Some d))) /\
     parse_callback (u "del_yes:" ++ py_str_Z gid) = Some (u "del_yes", gid) /\
     parse_callback (u "del_no:" ++ py_str_Z gid) = Some (u "del_no", gid)) /\
  (parse_callback d = Some (u "del_no", gid) ->
     on_callback cfg user (Some d) = answer (Some TDelNo) false /\
     forall P, ~ calls_in P (on_callback cfg user (Some d))) /\
  (parse_callback d = Some (u "del_yes", gid) ->
     calls_in (fun c => c = CPost EDelete [(u "giftcert_id", JInt gid); (u "confirm", JBool true)])
       (on_callback cfg user (Some d))) /\
  (forall data p, calls_in (fun c => c = CPost EDelete p) (on_callback cfg user data) ->
     exists d' gid', data = Some d' /\ parse_callback d' = Some (u "del_yes", gid') /\
       p = [(u "giftcert_id", JInt gid'); (u "confirm", JBool true)]).
Proof.
  intros Ha. split; [|split; [|split]].
  - intros Hp. rewrite (on_callback_admin cfg user d _ gid Ha Hp).
    assert (Hb : Z.abs gid < 10 ^ 4300).
    { unfold parse_callback in Hp. destruct (split_colon d) as [[a g]|]; [|discriminate].
      destruct (py_int g) as [z|] eqn:Hz; cbn in Hp; [|discriminate].
      injection Hp as _ <-. exact (py_int_bound g z Hz). }
    split; [reflexivity|]. split.
    + intros P. apply api_free_no_call. cbn. api_free_tac.
    + unfold parse_callback.
      replace (split_colon (u "del_yes:" ++ py_str_Z gid))
        with (Some (u "del_yes", py_str_Z gid)) by reflexivity.
      replace (split_colon (u "del_no:" ++ py_str_Z gid))
        with (Some (u "del_no", py_str_Z gid)) by reflexivity.
      rewrite (py_int_py_str_Z gid Hb). split; reflexivity.
  - intros Hp. rewrite (on_callback_admin cfg user d _ gid Ha Hp).
    split; [reflexivity|]. intros P. apply api_free_no_call. cbn. api_free_tac.
  - intros Hp. rewrite (on_callback_admin cfg user d _ gid Ha Hp).
    cbn. apply ci_emit. unfold api. cbn. apply ci_here. reflexivity.
  - intros data p Hc.
    destruct (calls_in_only _ _ _ Hc (on_callback_delete_calls cfg user data))
      as [c [-> Hq]].
    destruct (Hq (ex_intro _ p eq_refl)) as [d' [g' [Hd [Hp E]]]].
    injection E as ->. eauto 6.
Qed.


(** ** HTML of the certificate card *)

Lemma html_tags_app (a b : ustr) (ta tb t : list tag) :
  html_tags a ta -> html_tags b tb -> t = ta ++ tb -> html_tags (a ++ b) t.
Proof.
  intros Ha Hb ->. induction Ha; cbn;
    [exact Hb | apply ht_char | apply ht_b | apply ht_b_end | apply ht_code | apply ht_code_end];
    auto.
Qed.

Lemma html_tags_plain (s : ustr) :
  (forall c, In c s -> c <> 60 /\ c <> 62) -> html_tags s [].
Proof.
  induction s as [|c s IH]; intros H; [apply ht_nil|].
  destruct (H c (or_introl eq_refl)) as [H1 H2].
  apply ht_char; [exact H1 | exact H2 |]. apply IH. intros x Hx. apply H. right. exact Hx.
Qed.

Lemma in_replace_ch (c x : Z) (rep s : ustr) :
  In x (replace_ch c rep s) -> (In x s /\ x <> c) \/ In x rep.
Proof.
  unfold replace_ch. intros H. apply in_flat_map in H as [y [Hy Hx]].
  destruct (Z.eqb_spec y c) as [_|Hne]; [right; exact Hx|].
  left. destruct Hx as [<- | []]. split; assumption.
Qed.

Lemma esc_html_no_angle (v : json) (c : Z) : In c (esc_html v) -> c <> 60 /\ c <> 62.
Proof.
  unfold esc_html. intros H.
  apply in_replace_ch in H as [[H H62] | H]; [| cbv in H; lia].
  apply in_replace_ch in H as [[H H60] | H]; [| cbv in H; split; lia].
  split; assumption.
Qed.

Lemma esc_html_plain (v : json) : html_tags (esc_html v) [].
Proof. apply html_tags_plain. intros c. apply esc_html_no_angle. Qed.

Lemma dec_digits_chars (f : nat) : forall (n : Z) (acc : ustr) (c : Z),
  In c (dec_digits f n acc) -> In c acc \/ 48 <= c <= 57.
Proof.
  induction f as [|f IH]; intros n acc c H; cbn [dec_digits] in H; [left; exact H|].
  pose proof (Z.mod_pos_bound n 10 ltac:(lia)).
  destruct (n <? 10).
  - destruct H as [<- | H]; [right; lia | left; exact H].
  - apply IH in H as [[<- | H] | H]; [right; lia | left; exact H | right; exact H].
Qed.

Lemma py_str_Z_plain (z : Z) : html_tags (py_str_Z z) [].
Proof.
  apply html_tags_plain. intros c. unfold py_str_Z.
  assert (Hd : forall c, In c (dec_digits (S (Z.to_nat (Z.log2 (Z.abs z)))) (Z.abs z) []) ->
                 c <> 60 /\ c <> 62).
  { intros x Hx. apply dec_digits_chars in Hx as [[] | Hx]. lia. }
  destruct (z <? 0); [intros [<- | H]; [lia | exact (Hd c H)] | exact (Hd c)].
Qed.

Ltac html_lit :=
  repeat first
    [ apply ht_nil | apply ht_b | apply ht_b_end | apply ht_code | apply ht_code_end
    | apply ht_char; [lia | lia |] ].

Ltac html_piece :=
  match goal with
  | |- html_tags (_ ++ _) _ => eapply html_tags_app; [html_piece | html_piece | reflexivity]
  | |- html_tags (esc_html _) _ => apply esc_html_plain
  | |- html_tags (py_str_Z _) _ => apply py_str_Z_plain
  | H : html_tags ?s _ |- html_tags ?s _ => exact H
  | |- html_tags (_ :: _) _ =>
      first [ apply ht_b | apply ht_b_end | apply ht_code | apply ht_code_end
            | apply ht_char; [lia | lia |] ]; html_piece
  | |- html_tags [] _ => apply ht_nil
  | |- _ => solve [cbv; html_lit]
  end.

Lemma html_tags_join (lines : list ustr) (tss : list (list tag)) (t : list tag) :
  Forall2 html_tags lines tss -> t = List.concat tss -> html_tags (py_join [10] lines) t.
Proof.
  intros H ->. induction H as [|x ts l tsl Hx Hl IH]; [apply ht_nil|].
  rewrite concat_cons. destruct l as [|y l].
  - inversion Hl; subst. cbn. rewrite app_nil_r. exact Hx.
  - change (py_join [10] (x :: y :: l)) with (x ++ [10] ++ py_join [10] (y :: l)).
    eapply html_tags_app; [exact Hx | | reflexivity].
    eapply html_tags_app; [apply ht_char; [lia | lia | apply ht_nil] | exact IH | reflexivity].
Qed.

Lemma status_emoji_plain (st : json) (emo : ustr) :
  status_emoji st = Some emo -> html_tags emo [].
Proof.
  unfold status_emoji. destruct (str_or_empty st); [|discriminate].
  intros E; injection E as <-.
  repeat match goal with |- html_tags (if ?b then _ else _) _ => destruct b end;
    cbv; html_lit.
Qed.

Lemma timestamp_lines_tags (cert : jobj) (ks : list (ustr * ustr)) (ts : list ustr) :
  timestamp_lines cert ks = Some ts ->
  Forall (fun '(_, title) => html_tags title []) ks ->
  exists tss, Forall2 html_tags ts tss /\
    List.concat tss
      = List.concat (map (fun b : bool => if b then code_pair else [])
          (map (fun '(k, _) =>
                  match field_stripped cert k with Some v => negb (is_empty v) | None => false end)
               ks)).
Proof.
  revert ts; induction ks as [|[k title] r IH]; intros ts H Hks; cbn [timestamp_lines] in H.
  - injection H as <-. exists []. split; [constructor | reflexivity].
  - inversion Hks as [|? ? Ht Hr]; subst. cbv beta iota in Ht.
    destruct (field_stripped cert k) as [v|] eqn:Hv; [|discriminate].
    destruct (timestamp_lines cert r) as [rest|]; [|discriminate].
    injection H as <-. destruct (IH rest eq_refl Hr) as [tss [Hf Hc]].
    rewrite !map_cons, concat_cons. cbv beta iota. rewrite Hv. destruct (is_empty v).
    + exists tss. split; [exact Hf | exact Hc].
    + exists (code_pair :: tss). split.
      * constructor; [| exact Hf]. html_piece.
      * rewrite concat_cons, Hc. reflexivity.
Qed.

(** C10: [esc_html] maps [None] to the empty string and never outputs a
    raw [<] or [>]; and whatever the field values of a certificate, the
    card [format_cert] renders for it is text with exactly the HTML tags
    of its fixed template: a [<b>]/[</b>] or [<code>]/[</code>] pair per
    line, where only the presence of the optional lines (recipient, donor,
    each timestamp, order) varies.  No field value adds, removes or
    reorders a tag. *)
Theorem card_fields_escaped (cert : jobj) :
  esc_html JNull = [] /\
  (forall v c, In c (esc_html v) -> c <> 60 /\ c <> 62) /\
  (forall out, format_cert cert = Some out ->
     exists sh, card_shape cert = Some sh /\ html_tags out (shape_tags sh)).
Proof.
  split; [reflexivity|]. split; [exact esc_html_no_angle|].
  intros out Hf. unfold format_cert in Hf. unfold card_shape.
  destruct (status_emoji _) as [emo|] eqn:He; [|discriminate].
  destruct (status_label _) as [lab|]; [|discriminate].
  destruct (field_stripped cert (u "recipient_name")) as [rn|]; [|discriminate].
  destruct (field_stripped cert (u "recipient_email")) as [reml|]; [|discriminate].
  destruct (str_or_empty (get cert (u "lastname"))) as [ln|]; [|discriminate].
  destruct (str_or_empty (get cert (u "firstname"))) as [fn|]; [|discriminate].
  destruct (timestamp_lines cert timestamp_keys) as [ts|] eqn:Hts; [|discriminate].
  destruct (py_int_json _) as [oid|]; [|discriminate].
  assert (Hsome : forall (a b : ustr), Some a = Some b -> a = b) by congruence.
  apply Hsome in Hf. subst out. eexists. split; [reflexivity|].
  assert (Hemo := status_emoji_plain _ _ He).
  assert (Htitles : Forall (fun '(_, title) => html_tags title []) timestamp_keys).
  { repeat (apply Forall_cons; [cbv; html_lit|]). apply Forall_nil. }
  destruct (timestamp_lines_tags cert timestamp_keys ts Hts Htitles) as [tss [Hft Hcat]].
  cbv zeta.
  destruct (is_empty rn && is_empty reml), (is_empty (py_strip (ln ++ u " " ++ fn))),
    (oid =? 0);
    (eapply html_tags_join;
     [ repeat first [ apply Forall2_nil | exact Hft | apply Forall2_app
                    | apply Forall2_cons; [html_piece |] ]
     | rewrite !concat_app, Hcat; reflexivity ]).
Qed.


(** ** Submission outcomes *)



Lemma reachable_fold (cfg : config) (o : oracle) (evs : list event) (w : world) :
  reachable cfg w -> reachable cfg (fold_left (step_world cfg o) evs w).
Proof.
  revert w; induction evs as [|ev evs IH]; intros w Hw; cbn; [exact Hw|].
  apply IH. apply reach_step. exact Hw.
Qed.


(** ** The amount, once set, is positive *)

Lemma results_in_bind {A B} (P : A -> Prop) (Q : B -> Prop) (m : prog A) (f : A -> prog B) :
  results_in P m -> (forall a, P a -> results_in Q (f a)) -> results_in Q (bind m f).
Proof. intros Hm Hf. induction Hm; cbn; try constructor; auto. Qed.

Lemma results_in_true {A} (p : prog A) : results_in (fun _ => True) p.
Proof. induction p; constructor; auto. Qed.

Lemma results_in_run {A} (Q : A -> Prop) (o : oracle) (p : prog A) (a : A) :
  results_in Q p -> snd (run o p) = Some a -> Q a.
Proof.
  intros H. induction H as [b Hb| |x k Hk IH|c k Hk IH|ps k Hk IH]; cbn.
  - intros E; injection E as <-; exact Hb.
  - discriminate.
  - destruct (run o k) as [t r]; exact IH.
  - specialize (IH (o_api o c)). destruct (run o (k (o_api o c))) as [t r]; exact IH.
  - specialize (IH (o_pdf o ps)). destruct (run o (k (o_pdf o ps))) as [t r]; exact IH.
Qed.

Ltac results_tac close :=
  repeat first
    [ apply ri_ret; close
    | apply ri_raise | apply ri_emit
    | apply ri_api; intros | apply ri_pdf; intros
    | progress cbn beta iota zeta
    | apply (results_in_bind (fun _ => True)); [apply results_in_true | intros ? _]
    | match goal with |- results_in _ (match ?x with _ => _ end) => destruct x end
    | progress (unfold reply, say, lift, download, api, sheet_link, cancel) ].

Ltac amount_close :=
  cbv beta; unfold amount_pos; cbn [fst ud_amount ud_empty];
  match goal with
  | H : amount_pos _ |- _ => exact H
  | |- _ => let E := fresh "E" in intros ? E; discriminate E
  end.

Lemma wizard_handlers_amount_pos (cfg : config) (user : option Z) (s : wstate) (t : ustr)
    (ud : udata) :
  amount_pos ud ->
  results_in (fun r => amount_pos (fst r)) (new_cmd cfg user ud) /\
  results_in (fun r => amount_pos (fst r)) (cancel ud) /\
  results_in (fun r => amount_pos (fst r)) (state_handler cfg s t ud).
Proof.
  intros Hud. split; [unfold new_cmd; results_tac amount_close|].
  split; [results_tac amount_close|].
  destruct s; cbn [state_handler].
  - unfold on_amount. cbv zeta. destruct (negb (py_str_isdigit (py_strip t)));
      [results_tac amount_close|].
    apply (results_in_bind (fun _ => True)); [apply results_in_true|]. intros n _.
    destruct (Z.leb_spec n 0); [results_tac amount_close|].
    apply ri_emit. apply ri_ret. cbn. intros m E. injection E as <-. assumption.
  - unfold on_recipient_name; results_tac amount_close.
  - unfold on_donor_first; results_tac amount_close.
  - unfold on_donor_last; results_tac amount_close.
  - unfold on_recipient_email; results_tac amount_close.
  - unfold on_action; results_tac amount_close.
Qed.

Lemma handle_event_amount_pos (cfg : config) (w : world) (ev : event) :
  (forall x, amount_pos (udatas w x)) ->
  results_in (fun w' => forall x, amount_pos (udatas w' x)) (handle_event cfg w ev).
Proof.
  intros Hw.
  assert (Hconv : forall chat user m,
             results_in (fun w' => forall x, amount_pos (udatas w' x))
                        (conv_or_router cfg w chat user m)).
  { intros chat user m. unfold conv_or_router.
    destruct (conv_select cfg user (convs w chat user) m) as [h|] eqn:Hsel.
    - apply (results_in_bind (fun r => amount_pos (fst r))).
      + destruct (wizard_handlers_amount_pos cfg (Some user) ACTION [] (udatas w user) (Hw user))
          as [Hn [Hc _]].
        unfold conv_select in Hsel.
        destruct m as [n args | t].
        * destruct (ustr_eqb n (u "new")); [injection Hsel as <-; exact Hn|].
          destruct (convs w chat user); [|discriminate].
          destruct (ustr_eqb n (u "cancel")); [injection Hsel as <-; exact Hc | discriminate].
        * destruct (regex_full L_new t); [injection Hsel as <-; exact Hn|].
          destruct (convs w chat user) as [s|]; [|discriminate].
          injection Hsel as <-.
          exact (proj2 (proj2 (wizard_handlers_amount_pos cfg (Some user) s t _ (Hw user)))).
      + intros r Hr. apply ri_ret. intros x.
        destruct (snd r); cbn; destruct (x =? user); auto.
    - destruct m as [n args | t]; [apply ri_ret; exact Hw|].
      apply (results_in_bind (fun ud => amount_pos ud)).
      + unfold menu_router. cbv zeta.
        destruct (ustr_eqb (py_strip t) L_new).
        * apply (results_in_bind (fun r => amount_pos (fst r))).
          -- exact (proj1 (wizard_handlers_amount_pos cfg (Some user) ACTION t _ (Hw user))).
          -- intros r Hr. apply ri_ret. exact Hr.
        * repeat match goal with |- results_in _ (if ?b then _ else _) => destruct b end;
            try (apply (results_in_bind (fun _ => True)); [apply results_in_true | intros ? _]);
            apply ri_ret; exact (Hw user).
      + intros ud Hud. apply ri_ret. intros x. cbn. destruct (x =? user); auto. }
  destruct ev as [chat user m | chat user data]; cbn [handle_event].
  - destruct m as [n args | t]; [|apply Hconv].
    repeat match goal with |- results_in _ (if ?b then _ else _) => destruct b end;
      try apply Hconv;
      (apply (results_in_bind (fun _ => True)); [apply results_in_true | intros ? _]);
      apply ri_ret; exact Hw.
  - apply (results_in_bind (fun _ => True)); [apply results_in_true | intros ? _].
    apply ri_ret; exact Hw.
Qed.

(** The part of C5 that holds: in every reachable world, an amount that
    is set in some user's [user_data] is positive. *)
Lemma amount_positive_once_set (cfg : config) (w : world) :
  reachable cfg w -> forall x, amount_pos (udatas w x).
Proof.
  intros H. induction H as [|w o ev Hr IH].
  - intros x n E. discriminate E.
  - unfold step_world.
    destruct (snd (run o (handle_event cfg w ev))) as [w'|] eqn:E; [|exact IH].
    exact (results_in_run _ o _ w' (handle_event_amount_pos cfg w ev IH) E).
Qed.

End Unicode.

(** * Concrete runs, with the Latin-1 part of Python's Unicode tables *)

#[local] Existing Instance latin1_unicode.

(** C5: [user_data] is shared by all conversations of a user while each
    chat has its own conversation state, so the wizard can submit with no
    amount.  After user 7 reaches the delivery choice in chat 1 and sends
    /new in chat 2, which clears [user_data], the chat-1 conversation is
    still at [ACTION] with no amount set, and choosing PDF there sends the
    creation request with [amount = 0] ([user_data.get("amount", 0)]). *)
Theorem shared_user_data_unset_amount_submits :
  reachable cfg_open two_chat_world /\
  convs two_chat_world 1 7 = Some ACTION /\
  ud_amount (udatas two_chat_world 7) = None /\
  firstn 2 (fst (run o_created (handle_event cfg_open two_chat_world (ev_text 1 7 L_pdf_tg))))
    = [TOut (OText TGenerating NoMarkup); TCall (CCreate (create_payload ud_empty false))] /\
  get (create_payload ud_empty false) (u "amount") = JInt 0.
Proof.
  refine (conj _ (conj _ (conj _ (conj _ _)))).
  - unfold two_chat_world. apply reachable_fold. apply reach_init.
  - vm_compute. reflexivity.
  - vm_compute. reflexivity.
  - vm_compute. reflexivity.
  - vm_compute. reflexivity.
Qed.

(** A superscript digit passes [str.isdigit()] but [int()] rejects it:
    at the amount step the handler raises instead of re-prompting, the
    bot sends nothing, and the error handler leaves the state as it was. *)
Lemma amount_superscript_raises :
  py_str_isdigit [178] = true /\
  run o_created (handle_event cfg_open (world_at AMOUNT ud_empty) (ev_text 1 7 [178])) = ([], None) /\
  convs (step_world cfg_open o_created (world_at AMOUNT ud_empty) (ev_text 1 7 [178])) 1 7
    = Some AMOUNT.
Proof. vm_compute. split; [reflexivity | split; reflexivity]. Qed.

Lemma anonymous_scan_promo_only_witness :
  run o_created (handle_event cfg_admin1 w0 (EvMessage 1 7 (EvCmd (u "scan") [u "123456"])))
    = ([TOut (OText TPromo NoMarkup)], Some w0).
Proof.
  refine (proj2 (anonymous_scan_promo_only cfg_admin1 w0 o_created 1 7 (u "scan") [u "123456"] _ _)).
  - reflexivity.
  - right. split; [reflexivity | vm_compute; discriminate].
Defined.





Lemma amount_step_validates_stripped_witness :
  exists w',
    run o_created (handle_event cfg_open (world_at AMOUNT ud_empty) (ev_text 1 7 (u " 70 ")))
      = ([TOut (OText TAskRecipientName NoMarkup)], Some w') /\
    convs w' 1 7 = Some RECIPIENT_NAME /\ ud_amount (udatas w' 7) = Some 70.
Proof.
  refine (proj1 (amount_step_validates_stripped cfg_open (world_at AMOUNT ud_empty) o_created 1 7
                   (u " 70 ") _ _ _) 70 _ _ _).
  - reflexivity.
  - vm_compute. reflexivity.
  - cbn. lia.
  - vm_compute. discriminate.
  - vm_compute. reflexivity.
  - lia.
Defined.

(** Counterexample to C4: [" 70"] is not a string of decimal digits
    ([" 70".isdigit()] is false), yet the amount step accepts it, stores
    70 and advances. *)
Lemma amount_leading_space_accepted :
  py_str_isdigit (u " 70") = false /\
  convs (step_world cfg_open o_created (world_at AMOUNT ud_empty) (ev_text 1 7 (u " 70"))) 1 7
    = Some RECIPIENT_NAME /\
  ud_amount (udatas (step_world cfg_open o_created (world_at AMOUNT ud_empty)
                       (ev_text 1 7 (u " 70"))) 7) = Some 70.
Proof. vm_compute. split; [reflexivity | split; reflexivity]. Qed.

Lemma delete_two_step_witness :
  on_callback cfg_open (Some 7) (Some (u "del:17"))
    = bind (answer None false)
        (fun _ : unit =>
           say (OText (TDelAsk (py_str_Z 17))
                  (InlineKb [[IBData BDelYes (u "del_yes:" ++ py_str_Z 17);
                              IBData BDelNo (u "del_no:" ++ py_str_Z 17)]]))) /\
  parse_callback (u "del_yes:" ++ py_str_Z 17) = Some (u "del_yes", 17) /\
  parse_callback (u "del_no:" ++ py_str_Z 17) = Some (u "del_no", 17).
Proof.
  assert (Ha : is_admin cfg_open (Some 7) = true) by reflexivity.
  assert (Hp : parse_callback (u "del:17") = Some (u "del", 17)) by (vm_compute; reflexivity).
  destruct (proj1 (delete_two_step cfg_open (Some 7) (u "del:17") 17 Ha) Hp)
    as [H1 [_ [H2 H3]]].
  exact (conj H1 (conj H2 H3)).
Defined.

Lemma email_choice_without_address_reprompts_witness :
  exists w',
    run o_created (handle_event cfg_open (world_at ACTION ud_70) (ev_text 1 7 L_email))
      = ([TOut (OText TEmailMissing NoMarkup)], Some w') /\
    convs w' 1 7 = Some ACTION /\
    (forall x, udatas w' x = udatas (world_at ACTION ud_70) x).
Proof.
  refine (email_choice_without_address_reprompts cfg_open (world_at ACTION ud_70) o_created 1 7
            L_email _ _ _).
  - reflexivity.
  - reflexivity.
  - vm_compute. reflexivity.
Defined.


Lemma card_fields_escaped_witness :
  exists out sh,
    format_cert cert_markup = Some out /\ card_shape cert_markup = Some sh /\
    html_tags out (shape_tags sh).
Proof.
  destruct (format_cert cert_markup) as [out|] eqn:E; [|discriminate].
  destruct (proj2 (proj2 (card_fields_escaped cert_markup)) out E) as [sh [H1 H2]].
  exists out, sh. split; [reflexivity | split; [exact H1 | exact H2]].
Defined.
